(** * auth-service: token lifecycle and session ledger

    A shallow embedding of [src/auth/auth.service.ts],
    [src/users/users.service.ts] and the controller with the session
    endpoints (the [AuthController] whose text follows the cache module in
    [src/cache/cache.module.ts]), together with the properties the
    specification states about them.  The tables are the two Prisma models
    listed in [docs/refresh_token_implementation.md].

    Conventions.
    - Every [async] method is a computation in the monad [M]: it threads the
      database ([Store]) and either returns a value or throws an
      [Exception].  A [throw] keeps the writes made before it: the service
      opens no transaction.
    - The clock, [randomUUID()] and the bcrypt salts are inputs ([Env]).
    - Time is counted in whole seconds, as the [iat]/[exp] claims of a JWT. *)

From Stdlib Require Import String Ascii ZArith List Bool Lia DecimalString.
Import ListNotations.

Open Scope string_scope.
Open Scope Z_scope.

(** ** The JWT codec *)

Module Jwt.

(** The object handed to [jwtService.sign]: [{ sub }], [{ sub, jti }] or
    [{ sub, email }]. *)
Record Claims := mkClaims {
  sub : Z;
  jti : option string;
  email : option string
}.

Record Payload := mkPayload {
  claims : Claims;
  iat : Z;
  exp : Z
}.

(** A token is either a claim set signed under some secret or a string that
    is no JWT at all. *)
Inductive Token :=
| Signed (secret : string) (p : Payload)
| Garbage (raw : string).

Inductive JwtError :=
| TokenExpiredError
| JsonWebTokenError.

(** The [expiresIn] option: ['15m'], ['7d']. *)
Inductive Duration :=
| m (n : Z)
| d (n : Z).

Definition seconds (x : Duration) : Z :=
  match x with
  | m n => n * 60
  | d n => n * 24 * 60 * 60
  end.

(** [jwtService.sign(claims, { secret, expiresIn })] at time [now]: the claims
    with [iat] and [exp] added, signed under [secret]. *)
Definition sign (c : Claims) (secret : string) (expiresIn : Duration)
  (now : Z) : Token :=
  Signed secret {| claims := c; iat := now; exp := now + seconds expiresIn |}.

(** Modelled from the spec: the verification half of the Token Codec
    ([JwtService.verify] and the [JwtAuthGuard] strategy are not among the
    sources).  Section 4.2: "Checks signature, checks kind-appropriate secret,
    checks expiry against current time"; section 8: a token minted at [T] with
    lifetime [L] is "accepted until exactly T+L and rejected with
    TokenExpired at T+L+eps". *)
Definition verify (t : Token) (secret : string) (now : Z)
  : JwtError + Payload :=
  match t with
  | Signed k p =>
      if String.eqb k secret then
        if now <=? exp p then inr p else inl TokenExpiredError
      else inl JsonWebTokenError
  | Garbage _ => inl JsonWebTokenError
  end.

End Jwt.

(** ** bcrypt *)

Module Bcrypt.

(** A digest remembers the salt, the cost and (symbolically) what was
    hashed; [compare] succeeds exactly on the hashed plaintext. *)
Inductive Hash (A : Type) :=
| Digest (salt : string) (rounds : Z) (plain : A).

Arguments Digest {A} salt rounds plain.

Definition hash {A : Type} (plain : A) (rounds : Z) (salt : string) : Hash A :=
  Digest salt rounds plain.

Definition compare (plain : string) (h : Hash string) : bool :=
  match h with
  | Digest _ _ p => String.eqb plain p
  end.

End Bcrypt.

(** ** Rows of the two tables *)

Module User.

Record t := mk {
  id : Z;
  email : string;
  password : Bcrypt.Hash string;
  name : string;
  createdAt : Z;
  refreshToken : option (Bcrypt.Hash Jwt.Token)
}.

Definition set_refreshToken (v : option (Bcrypt.Hash Jwt.Token)) (u : t) : t :=
  {| id := id u; email := email u; password := password u; name := name u;
     createdAt := createdAt u; refreshToken := v |}.

End User.

Module Session.

Record t := mk {
  id : Z;
  userId : Z;
  jti : string;
  userAgent : string;
  ip : string;
  refreshToken : Jwt.Token;
  createdAt : Z;
  updatedAt : Z
}.

(** What [select: { id, userAgent, ip, createdAt, updatedAt }] keeps. *)
Record view := mkView {
  v_id : Z;
  v_userAgent : string;
  v_ip : string;
  v_createdAt : Z;
  v_updatedAt : Z
}.

Definition select (s : t) : view :=
  {| v_id := id s; v_userAgent := userAgent s; v_ip := ip s;
     v_createdAt := createdAt s; v_updatedAt := updatedAt s |}.

End Session.

(** ** Exceptions and the database state *)

Inductive PrismaCode :=
| P1001   (* the database server cannot be reached *)
| P2002   (* unique constraint failed *)
| P2003   (* foreign key constraint failed *)
| P2025.  (* record to update or delete not found *)

Inductive Exception :=
| UnauthorizedException (message : string)
| ForbiddenException (message : string)
| NotFoundException (message : string)
| PrismaClientKnownRequestError (code : PrismaCode)
| PrismaClientValidationError
| JwtException (e : Jwt.JwtError).

(** An id as a handler holds it at run time: the integer its signature
    declares, or the text of the route segment, which is what the framework
    hands to [@Param('id')] when no pipe converts it (the controller names
    none and [main.ts] sets none). *)
Inductive RouteId :=
| IdNumber (n : Z)
| IdText (s : string).

(** [outage = Some n]: the database answers [n] more queries and then stops
    answering; [None]: it stays up. *)
Record Store := mkStore {
  users : list User.t;
  sessions : list Session.t;
  userSeq : Z;
  sessionSeq : Z;
  outage : option nat
}.

Definition set_users (us : list User.t) (st : Store) : Store :=
  {| users := us; sessions := sessions st; userSeq := userSeq st;
     sessionSeq := sessionSeq st; outage := outage st |}.

Definition set_sessions (ss : list Session.t) (st : Store) : Store :=
  {| users := users st; sessions := ss; userSeq := userSeq st;
     sessionSeq := sessionSeq st; outage := outage st |}.

Definition set_userSeq (n : Z) (st : Store) : Store :=
  {| users := users st; sessions := sessions st; userSeq := n;
     sessionSeq := sessionSeq st; outage := outage st |}.

Definition set_sessionSeq (n : Z) (st : Store) : Store :=
  {| users := users st; sessions := sessions st; userSeq := userSeq st;
     sessionSeq := n; outage := outage st |}.

Definition set_outage (o : option nat) (st : Store) : Store :=
  {| users := users st; sessions := sessions st; userSeq := userSeq st;
     sessionSeq := sessionSeq st; outage := o |}.

(** ** The monad of request handlers *)

Definition Result (A : Type) : Type := (Exception + A)%type.

Definition M (A : Type) : Type := Store -> Result A * Store.

Definition ret {A : Type} (a : A) : M A := fun st => (inr a, st).

Definition throw {A : Type} (e : Exception) : M A := fun st => (inl e, st).

Definition bind {A B : Type} (c : M A) (k : A -> M B) : M B :=
  fun st =>
    match c st with
    | (inr a, st') => k a st'
    | (inl e, st') => (inl e, st')
    end.

(** [try { c } catch (error) { h error }] *)
Definition try_catch {A : Type} (c : M A) (h : Exception -> M A) : M A :=
  fun st =>
    match c st with
    | (inr a, st') => (inr a, st')
    | (inl e, st') => h e st'
    end.

Declare Scope handler_scope.
Delimit Scope handler_scope with handler.
Notation "x <- c ;; k" := (bind c (fun x => k))
  (at level 61, c at next level, right associativity) : handler_scope.
Notation "c ;;; k" := (bind c (fun _ => k))
  (at level 61, right associativity) : handler_scope.
Open Scope handler_scope.

(** ** The Prisma client *)

Module Prisma.

(** One round trip to the database. *)
Definition query : M unit :=
  fun st =>
    match outage st with
    | None => (inr tt, st)
    | Some O => (inl (PrismaClientKnownRequestError P1001), st)
    | Some (S n) => (inr tt, set_outage (Some n) st)
    end.

Definition find_user_by_id (i : Z) (us : list User.t) : option User.t :=
  find (fun u => User.id u =? i) us.

Definition find_user_by_email (e : string) (us : list User.t) : option User.t :=
  find (fun u => String.eqb (User.email u) e) us.

Definition find_session_by_id (i : Z) (ss : list Session.t) : option Session.t :=
  find (fun s => Session.id s =? i) ss.

Definition find_session_by_jti (j : string) (ss : list Session.t)
  : option Session.t :=
  find (fun s => String.eqb (Session.jti s) j) ss.

(** [prisma.user.create({ data })]: [email] is [@unique], [id] is
    [@default(autoincrement())], [createdAt] is [@default(now())] and
    [refreshToken] is optional. *)
Definition user_create (email : string) (password : Bcrypt.Hash string)
  (name : string) (now : Z) : M User.t :=
  query ;;;
  fun st =>
    match find_user_by_email email (users st) with
    | Some _ => (inl (PrismaClientKnownRequestError P2002), st)
    | None =>
        let u := {| User.id := userSeq st; User.email := email;
                    User.password := password; User.name := name;
                    User.createdAt := now; User.refreshToken := None |} in
        (inr u, set_userSeq (userSeq st + 1) (set_users (users st ++ [u]) st))
    end.

(** [prisma.user.findUnique({ where: { email } })] *)
Definition user_findUnique_email (email : string) : M (option User.t) :=
  query ;;; fun st => (inr (find_user_by_email email (users st)), st).

(** [prisma.user.findUnique({ where: { id } })] *)
Definition user_findUnique_id (id : Z) : M (option User.t) :=
  query ;;; fun st => (inr (find_user_by_id id (users st)), st).

(** [prisma.user.update({ where: { id }, data: { refreshToken } })] *)
Definition user_update_refreshToken (id : Z)
  (v : option (Bcrypt.Hash Jwt.Token)) : M User.t :=
  query ;;;
  fun st =>
    match find_user_by_id id (users st) with
    | None => (inl (PrismaClientKnownRequestError P2025), st)
    | Some u =>
        (inr (User.set_refreshToken v u),
         set_users
           (map (fun x => if User.id x =? id
                          then User.set_refreshToken v x else x) (users st))
           st)
    end.

(** [prisma.session.create({ data })]: [jti] is [@unique] and [userId]
    references [User.id]. *)
Definition session_create (userId : Z) (jti : string)
  (refreshToken : Jwt.Token) (userAgent ip : string) (now : Z)
  : M Session.t :=
  query ;;;
  fun st =>
    match find_session_by_jti jti (sessions st) with
    | Some _ => (inl (PrismaClientKnownRequestError P2002), st)
    | None =>
        match find_user_by_id userId (users st) with
        | None => (inl (PrismaClientKnownRequestError P2003), st)
        | Some _ =>
            let s := {| Session.id := sessionSeq st; Session.userId := userId;
                        Session.jti := jti; Session.userAgent := userAgent;
                        Session.ip := ip;
                        Session.refreshToken := refreshToken;
                        Session.createdAt := now;
                        Session.updatedAt := now |} in
            (inr s,
             set_sessionSeq (sessionSeq st + 1)
               (set_sessions (sessions st ++ [s]) st))
        end
    end.

(** [prisma.session.findFirst({ where: { jti } })].  The client drops a
    filter whose value is [undefined], so a missing [jti] selects the first
    row of the table. *)
Definition session_findFirst_jti (jti : option string)
  : M (option Session.t) :=
  query ;;;
  fun st =>
    match jti with
    | Some j => (inr (find_session_by_jti j (sessions st)), st)
    | None => (inr (head (sessions st)), st)
    end.

(** [prisma.session.findUnique({ where: { id } })].  [id] is an [Int]
    column: the client checks the arguments before it queries and refuses a
    string with [PrismaClientValidationError]. *)
Definition session_findUnique (id : RouteId) : M (option Session.t) :=
  match id with
  | IdNumber i =>
      query ;;; fun st => (inr (find_session_by_id i (sessions st)), st)
  | IdText _ => throw PrismaClientValidationError
  end.

(** [prisma.session.delete({ where: { id } })], with the same check of the
    arguments. *)
Definition session_delete (id : RouteId) : M Session.t :=
  match id with
  | IdNumber i =>
      query ;;;
      fun st =>
        match find_session_by_id i (sessions st) with
        | None => (inl (PrismaClientKnownRequestError P2025), st)
        | Some s =>
            (inr s,
             set_sessions
               (filter (fun x => negb (Session.id x =? i)) (sessions st)) st)
        end
  | IdText _ => throw PrismaClientValidationError
  end.

(** [prisma.session.deleteMany({ where: { userId } })], which answers with
    the number of rows removed. *)
Definition session_deleteMany (userId : Z) : M nat :=
  query ;;;
  fun st =>
    (inr (length (filter (fun x => Session.userId x =? userId) (sessions st))),
     set_sessions
       (filter (fun x => negb (Session.userId x =? userId)) (sessions st)) st).

(** [prisma.session.findMany({ where: { userId }, select: ... })] *)
Definition session_findMany (userId : Z) : M (list Session.view) :=
  query ;;;
  fun st =>
    (inr (map Session.select
            (filter (fun x => Session.userId x =? userId) (sessions st))),
     st).

End Prisma.

(** ** The environment of one request *)

Record Config := mkConfig {
  JWT_SECRET : string;
  JWT_REFRESH_SECRET : string
}.

(** [now] is the clock in seconds, [randomUUID] the value [randomUUID()]
    returns, [salt0] and [salt1] the salts bcrypt draws for the first and the
    second [bcrypt.hash] of the request. *)
Record Env := mkEnv {
  config : Config;
  now : Z;
  randomUUID : string;
  salt0 : string;
  salt1 : string
}.

(** The parts of the Express request the handlers read. *)
Record Request := mkRequest {
  body_email : string;
  body_password : string;
  header_user_agent : option string;
  req_ip : option string;
  remoteAddress : option string;
  cookie_refresh_token : option Jwt.Token
}.

(** [a || b] on values that are [undefined] or strings: the empty string is
    falsy as well. *)
Definition or_else (a : option string) (b : option string) : option string :=
  match a with
  | Some s => if String.eqb s "" then b else Some s
  | None => b
  end.

Definition or_default (a : option string) (b : string) : string :=
  match or_else a None with
  | Some s => s
  | None => b
  end.

(** ** src/users/users.service.ts *)

Module UsersService.

Definition create (email : string) (password : Bcrypt.Hash string)
  (name : string) (now : Z) : M User.t :=
  Prisma.user_create email password name now.

Definition findByEmail (email : string) : M (option User.t) :=
  Prisma.user_findUnique_email email.

Definition findById (id : Z) : M (option User.t) :=
  Prisma.user_findUnique_id id.

Definition updateRefreshToken (userId : Z)
  (refreshToken : option (Bcrypt.Hash Jwt.Token)) : M User.t :=
  Prisma.user_update_refreshToken userId refreshToken.

End UsersService.

(** ** src/auth/auth.service.ts *)

(** The object [{ accessToken, refreshToken }]. *)
Module TokenPair.

Record t := mk {
  accessToken : Jwt.Token;
  refreshToken : Jwt.Token
}.

End TokenPair.

Module AuthService.

Record PublicUser := mkPublic {
  id : Z;
  email : string;
  name : string
}.

Record Registered := mkRegistered {
  access_token : Jwt.Token;
  refresh_token : Jwt.Token;
  user : PublicUser
}.

Definition public (u : User.t) : PublicUser :=
  {| id := User.id u; email := User.email u; name := User.name u |}.

Definition validateUser (email password : string) : M User.t :=
  user <- UsersService.findByEmail email ;;
  match user with
  | None => throw (UnauthorizedException "Credenciales inválidas")
  | Some user =>
      if Bcrypt.compare password (User.password user)
      then ret user
      else throw (UnauthorizedException "Credenciales inválidas")
  end.

Definition login (env : Env) (user : User.t) (req : Request) : M TokenPair.t :=
  let jti := randomUUID env in
  let refreshToken :=
    Jwt.sign (Jwt.mkClaims (User.id user) (Some jti) None)
      (JWT_REFRESH_SECRET (config env)) (Jwt.d 7) (now env) in
  let accessToken :=
    Jwt.sign (Jwt.mkClaims (User.id user) None None)
      (JWT_SECRET (config env)) (Jwt.m 15) (now env) in
  let userAgent := or_default (header_user_agent req) "unknown" in
  let ip := or_default (or_else (req_ip req) (remoteAddress req)) "unknown" in
  Prisma.session_create (User.id user) jti refreshToken userAgent ip (now env) ;;;
  ret {| TokenPair.accessToken := accessToken;
         TokenPair.refreshToken := refreshToken |}.

Definition generateTokens (env : Env) (userId : Z) (email : string)
  : M TokenPair.t :=
  let payload := Jwt.mkClaims userId None (Some email) in
  ret {| TokenPair.accessToken :=
           Jwt.sign payload (JWT_SECRET (config env)) (Jwt.m 15) (now env);
         TokenPair.refreshToken :=
           Jwt.sign payload (JWT_REFRESH_SECRET (config env)) (Jwt.d 7)
             (now env) |}.

Definition register (env : Env) (email password name : string)
  : M Registered :=
  let hashedPassword := Bcrypt.hash password 10 (salt0 env) in
  newUser <- UsersService.create email hashedPassword name (now env) ;;
  tokens <- generateTokens env (User.id newUser) (User.email newUser) ;;
  let hashedRefreshToken := Bcrypt.hash (TokenPair.refreshToken tokens) 10 (salt1 env) in
  UsersService.updateRefreshToken (User.id newUser) (Some hashedRefreshToken) ;;;
  ret {| access_token := TokenPair.accessToken tokens;
         refresh_token := TokenPair.refreshToken tokens;
         user := public newUser |}.

Definition logout (userId : Z) : M string :=
  UsersService.updateRefreshToken userId None ;;;
  ret "Sesión cerrada correctamente".

Definition getProfile (userId : Z) : M PublicUser :=
  user <- UsersService.findById userId ;;
  match user with
  | None => throw (UnauthorizedException "Usuario no encontrado")
  | Some user => ret (public user)
  end.

(** [jwtService.verify] throws what the codec reports. *)
Definition jwt_verify (env : Env) (token : Jwt.Token) (secret : string)
  : M Jwt.Payload :=
  match Jwt.verify token secret (now env) with
  | inr payload => ret payload
  | inl e => throw (JwtException e)
  end.

Definition refreshToken_body (env : Env) (token : Jwt.Token) : M TokenPair.t :=
  payload <- jwt_verify env token (JWT_REFRESH_SECRET (config env)) ;;
  user <- UsersService.findById (Jwt.sub (Jwt.claims payload)) ;;
  match user with
  | None => throw (UnauthorizedException "Usuario no encontrado")
  | Some user =>
      session <- Prisma.session_findFirst_jti (Jwt.jti (Jwt.claims payload)) ;;
      match session with
      | None => throw (UnauthorizedException "Sesión inválida")
      | Some session =>
          let accessToken :=
            Jwt.sign (Jwt.mkClaims (User.id user) None None)
              (JWT_SECRET (config env)) (Jwt.m 15) (now env) in
          let refreshToken :=
            Jwt.sign
              (Jwt.mkClaims (User.id user) (Some (Session.jti session)) None)
              (JWT_REFRESH_SECRET (config env)) (Jwt.d 7) (now env) in
          ret {| TokenPair.accessToken := accessToken;
                 TokenPair.refreshToken := refreshToken |}
      end
  end.

Definition refreshToken (env : Env) (token : Jwt.Token) : M TokenPair.t :=
  try_catch (refreshToken_body env token)
    (fun error => throw (UnauthorizedException "Token inválido")).

End AuthService.

(** ** The controller with the session endpoints

    [AuthController] as printed after the cache module in
    [src/cache/cache.module.ts].  The handlers behind [JwtAuthGuard] receive
    [req.user.sub] as [userId]. *)

Module AuthController.

(** [res.cookie('refresh_token', value, { httpOnly, secure, sameSite, path,
    maxAge })], [maxAge] in milliseconds. *)
Record Cookie := mkCookie {
  value : Jwt.Token;
  httpOnly : bool;
  secure : bool;
  sameSite : string;
  path : string;
  maxAge : Z
}.

Record Response := mkResponse {
  accessToken : Jwt.Token;
  set_cookie : Cookie
}.

Definition refresh_cookie (t : Jwt.Token) : Cookie :=
  {| value := t; httpOnly := true; secure := true; sameSite := "strict";
     path := "/auth/refresh"; maxAge := 7 * 24 * 60 * 60 * 1000 |}.

Definition register (env : Env) (email password name : string)
  : M AuthService.Registered :=
  AuthService.register env email password name.

(** [validateUser] returns a user or throws, so the [if (!user)] of the
    handler never fires. *)
Definition login (env : Env) (req : Request) : M Response :=
  user <- AuthService.validateUser (body_email req) (body_password req) ;;
  tokens <- AuthService.login env user req ;;
  ret {| accessToken := TokenPair.accessToken tokens;
         set_cookie := refresh_cookie (TokenPair.refreshToken tokens) |}.

(** [!token] holds for a missing cookie and for an empty one. *)
Definition falsy (c : option Jwt.Token) : bool :=
  match c with
  | None => true
  | Some (Jwt.Garbage raw) => String.eqb raw ""
  | Some (Jwt.Signed _ _) => false
  end.

Definition refresh (env : Env) (req : Request) : M Response :=
  match cookie_refresh_token req with
  | Some token =>
      if falsy (Some token)
      then throw (UnauthorizedException "No hay refresh token")
      else
        tokens <- AuthService.refreshToken env token ;;
        ret {| accessToken := TokenPair.accessToken tokens;
               set_cookie := refresh_cookie (TokenPair.refreshToken tokens) |}
  | None => throw (UnauthorizedException "No hay refresh token")
  end.

Definition logout (userId : Z) : M string :=
  AuthService.logout userId.

Definition getProfile (userId : Z) : M AuthService.PublicUser :=
  AuthService.getProfile userId.

Definition getSessions (userId : Z) : M (list Session.view) :=
  Prisma.session_findMany userId.

(** [sessionId] is declared a number; on the route [DELETE sessions/:id] the
    handler holds the text of the segment. *)
Definition revokeSession (sessionId : RouteId) (userId : Z) : M string :=
  session <- Prisma.session_findUnique sessionId ;;
  match session with
  | None => throw (ForbiddenException "No autorizado para eliminar esta sesión")
  | Some session =>
      if negb (Session.userId session =? userId)
      then throw (ForbiddenException "No autorizado para eliminar esta sesión")
      else
        Prisma.session_delete sessionId ;;;
        ret "Sesión revocada correctamente"
  end.

Definition logoutAll (userId : Z) : M string :=
  Prisma.session_deleteMany userId ;;;
  ret "Todas las sesiones cerradas".

End AuthController.

(** ** src/auth/auth.controller.ts: the refresh endpoint of the user-record model

    The earlier controller refreshes against the hash that [register] and
    [logout] keep in the [refreshToken] column of the user row.
    [bcrypt.compare] on a token is a parameter, [compare]. *)

Module LegacyAuthController.

Record Tokens := mkTokens {
  access_token : Jwt.Token;
  refresh_token : Jwt.Token
}.

Definition refreshTokens
  (compare : Jwt.Token -> Bcrypt.Hash Jwt.Token -> bool)
  (env : Env) (userId : Z) (refresh_token : Jwt.Token) : M Tokens :=
  user <- UsersService.findById userId ;;
  match user with
  | None => throw (UnauthorizedException "Usuario no autorizado")
  | Some user =>
      match User.refreshToken user with
      | None => throw (UnauthorizedException "Usuario no autorizado")
      | Some stored =>
          if compare refresh_token stored
          then
            tokens <- AuthService.generateTokens env (User.id user)
                        (User.email user) ;;
            let hashedRefreshToken :=
              Bcrypt.hash (TokenPair.refreshToken tokens) 10 (salt0 env) in
            UsersService.updateRefreshToken (User.id user)
              (Some hashedRefreshToken) ;;;
            ret {| access_token := TokenPair.accessToken tokens;
                   refresh_token := TokenPair.refreshToken tokens |}
          else throw (UnauthorizedException "Token inválido o caducado")
      end
  end.

End LegacyAuthController.

(** ** The cache service ([BaseCacheService], src/unnamed/part_000) *)

Module BaseCacheService.

(** What a template literal makes of an [id: string | number]: a string
    stands for itself, a number is rendered by [toString], the conversion of
    the language, which is a parameter here. *)
Definition render {Number : Type} (toString : Number -> string)
  (id : string + Number) : string :=
  match id with
  | inl s => s
  | inr n => toString n
  end.

(** [`${prefix}:${id}`] *)
Definition buildKey {Number : Type} (toString : Number -> string)
  (prefix : string) (id : string + Number) : string :=
  prefix ++ ":" ++ render toString id.

End BaseCacheService.

Fixpoint has_colon (s : string) : bool :=
  match s with
  | EmptyString => false
  | String c s' => Ascii.eqb c ":"%char || has_colon s'
  end.

(** ** The constraints of the schema

    Primary keys and [@unique] columns hold no value twice, the sequences are
    ahead of the ids in use, and every session references a user. *)
Definition Store_ok (st : Store) : Prop :=
  NoDup (map User.id (users st))
  /\ NoDup (map User.email (users st))
  /\ NoDup (map Session.id (sessions st))
  /\ NoDup (map Session.jti (sessions st))
  /\ (forall u, In u (users st) -> User.id u < userSeq st)
  /\ (forall s, In s (sessions st) -> Session.id s < sessionSeq st)
  /\ (forall s, In s (sessions st) ->
                exists u, In u (users st) /\ User.id u = Session.userId s).

(** A handler keeps the constraints whatever it answers. *)
Definition preserves {A : Type} (c : M A) : Prop :=
  forall st, Store_ok st -> Store_ok (snd (c st)).

(** What a handler run leaves of a result: the value or the exception. *)
Definition succeeded {A : Type} (r : Result A) : bool :=
  match r with
  | inr _ => true
  | inl _ => false
  end.

(** ** Fixtures for the worked examples *)

Definition cfg : Config :=
  {| JWT_SECRET := "access-secret"; JWT_REFRESH_SECRET := "refresh-secret" |}.

Definition env_at (t : Z) (uuid : string) : Env :=
  {| config := cfg; now := t; randomUUID := uuid;
     salt0 := "salt-a"; salt1 := "salt-b" |}.

Definition empty_store : Store :=
  {| users := []; sessions := []; userSeq := 1; sessionSeq := 1;
     outage := None |}.

Definition browser (email password agent : string) : Request :=
  {| body_email := email; body_password := password;
     header_user_agent := Some agent; req_ip := Some "10.0.0.1";
     remoteAddress := None; cookie_refresh_token := None |}.

(** The store after [a@x.com] and [b@x.com] registered and after the first
    logged in twice and the second once. *)
Definition populated : Store :=
  let s1 := snd (AuthController.register (env_at 100 "") "a@x.com" "pw1" "A"
                   empty_store) in
  let s2 := snd (AuthController.register (env_at 110 "") "b@x.com" "pw2" "B"
                   s1) in
  let s3 := snd (AuthController.login (env_at 120 "jti-1")
                   (browser "a@x.com" "pw1" "firefox") s2) in
  let s4 := snd (AuthController.login (env_at 130 "jti-2")
                   (browser "b@x.com" "pw2" "safari") s3) in
  snd (AuthController.login (env_at 140 "jti-3")
         (browser "a@x.com" "pw1" "chrome") s4).

(** The refresh token the first login of [a@x.com] set as cookie, the one the
    login of [b@x.com] set, and the one the registration of [b@x.com]
    returned. *)
Definition alice_token : Jwt.Token :=
  Jwt.sign (Jwt.mkClaims 1 (Some "jti-1") None) "refresh-secret" (Jwt.d 7) 120.

Definition bob_token : Jwt.Token :=
  Jwt.sign (Jwt.mkClaims 2 (Some "jti-2") None) "refresh-secret" (Jwt.d 7) 130.

Definition bob_register_token : Jwt.Token :=
  Jwt.sign (Jwt.mkClaims 2 None (Some "b@x.com")) "refresh-secret" (Jwt.d 7)
    110.

(** The row the first login of [a@x.com] created. *)
Definition alice_session : Session.t :=
  {| Session.id := 1; Session.userId := 1; Session.jti := "jti-1";
     Session.userAgent := "firefox"; Session.ip := "10.0.0.1";
     Session.refreshToken := alice_token;
     Session.createdAt := 120; Session.updatedAt := 120 |}.

(** The pair a refresh at time 500 answers to [alice_token]. *)
Definition alice_refreshed : TokenPair.t :=
  {| TokenPair.accessToken :=
       Jwt.sign (Jwt.mkClaims 1 None None) "access-secret" (Jwt.m 15) 500;
     TokenPair.refreshToken :=
       Jwt.sign (Jwt.mkClaims 1 (Some "jti-1") None) "refresh-secret"
         (Jwt.d 7) 500 |}.

(** The populated store once [b@x.com] closed all sessions. *)
Definition bob_logged_out : Store :=
  snd (AuthController.logoutAll 2 populated).

(** The populated store with the row of user 2 gone and the session of
    user 2 still there. *)
Definition orphaned : Store :=
  set_users (filter (fun u => negb (User.id u =? 2)) (users populated))
    populated.


(** The session [findFirst] answers with for the [jti] claim of a payload. *)
Definition session_for (jti : option string) (ss : list Session.t)
  : option Session.t :=
  match jti with
  | Some j => Prisma.find_session_by_jti j ss
  | None => head ss
  end.

(** A comparison that recognises a token in its hash and no other. *)
Definition option_string_eqb (a b : option string) : bool :=
  match a, b with
  | Some x, Some y => String.eqb x y
  | None, None => true
  | _, _ => false
  end.

Definition token_eqb (a b : Jwt.Token) : bool :=
  match a, b with
  | Jwt.Signed k p, Jwt.Signed k' p' =>
      String.eqb k k'
      && (Jwt.sub (Jwt.claims p) =? Jwt.sub (Jwt.claims p'))
      && option_string_eqb (Jwt.jti (Jwt.claims p)) (Jwt.jti (Jwt.claims p'))
      && option_string_eqb (Jwt.email (Jwt.claims p))
           (Jwt.email (Jwt.claims p'))
      && (Jwt.iat p =? Jwt.iat p') && (Jwt.exp p =? Jwt.exp p')
  | Jwt.Garbage r, Jwt.Garbage r' => String.eqb r r'
  | _, _ => false
  end.

Definition recognises (t : Jwt.Token) (h : Bcrypt.Hash Jwt.Token) : bool :=
  match h with
  | Bcrypt.Digest _ _ plain => token_eqb t plain
  end.

(** The populated store with the database failing at the second query. *)
Definition failing_soon : Store := set_outage (Some 1%nat) populated.

(** The decimal rendering of an integer, as a template literal renders an
    integral number. *)
Definition decimal (n : Z) : string :=
  DecimalString.NilZero.string_of_int (Z.to_int n).

(** * Properties *)

(** ** Running the monad *)

Lemma query_up (st : Store) :
  outage st = None -> Prisma.query st = (inr tt, st).
Proof. intros H. unfold Prisma.query. now rewrite H. Qed.


(** Unfolds the handlers down to [bind] and [Prisma.query]. *)
Ltac handlers :=
  unfold AuthController.register, AuthController.login, AuthController.refresh,
    AuthController.logout, AuthController.getProfile,
    AuthController.getSessions, AuthController.revokeSession,
    AuthController.logoutAll,
    AuthService.validateUser, AuthService.login, AuthService.register,
    AuthService.logout, AuthService.getProfile, AuthService.generateTokens,
    AuthService.refreshToken, AuthService.refreshToken_body,
    AuthService.jwt_verify,
    UsersService.create, UsersService.findByEmail, UsersService.findById,
    UsersService.updateRefreshToken,
    Prisma.user_create, Prisma.user_findUnique_email,
    Prisma.user_findUnique_id, Prisma.user_update_refreshToken,
    Prisma.session_create, Prisma.session_findFirst_jti,
    Prisma.session_findUnique, Prisma.session_delete,
    Prisma.session_deleteMany, Prisma.session_findMany.

(** Runs a handler on a store that stays up. *)
Ltac run_up H :=
  handlers; unfold bind, try_catch, ret, throw;
  rewrite ?(query_up _ H); cbn [fst snd].

(** Simplifies the fields of a store and the state of the database. *)
Ltac store_fields :=
  cbn [users sessions userSeq sessionSeq outage set_users set_sessions
       set_userSeq set_sessionSeq set_outage fst snd option_map].

Ltac store_cbn :=
  store_fields;
  repeat match goal with
         | H : outage ?st = _ |- context [outage ?st] =>
             rewrite H; store_fields
         end.

(** Splits on the answer of the next lookup or test of a handler. *)
Ltac next_answer :=
  store_cbn;
  match goal with
  | |- context [match ?x with Some _ => _ | None => _ end] =>
      destruct x eqn:?
  | |- context [if ?b then _ else _] => destruct b eqn:?
  end;
  store_cbn.

(** ** Lists of rows *)

Lemma filter_split_length {A : Type} (p : A -> bool) (l : list A) :
  length l = (length (filter p l) + length (filter (fun x => negb (p x)) l))%nat.
Proof.
  induction l as [|a l IH]; cbn; [reflexivity|].
  destruct (p a); cbn; lia.
Qed.

(** ** The worked examples *)

Example populated_sessions :
  map (fun s => (Session.id s, Session.userId s, Session.jti s))
    (sessions populated)
  = [(1, 1, "jti-1"); (2, 2, "jti-2"); (3, 1, "jti-3")].
Proof. reflexivity. Qed.

Example populated_users :
  map (fun u => (User.id u, User.email u)) (users populated)
  = [(1, "a@x.com"); (2, "b@x.com")].
Proof. reflexivity. Qed.

(** ** Credential verification *)

(** C7: a verification with an email that has no user and one with an
    existing email and a wrong password end in the same outcome, the same
    error and the same store, so the caller cannot tell which of the two was
    wrong; with the database up that error is
    [UnauthorizedException "Credenciales inválidas"]. *)
Theorem C7_validateUser_same_error :
  forall (st : Store) (email1 password1 email2 password2 : string)
         (u : User.t),
    Prisma.find_user_by_email email1 (users st) = None ->
    Prisma.find_user_by_email email2 (users st) = Some u ->
    Bcrypt.compare password2 (User.password u) = false ->
    AuthService.validateUser email1 password1 st
    = AuthService.validateUser email2 password2 st
    /\ (exists e, fst (AuthService.validateUser email1 password1 st) = inl e)
    /\ (outage st = None ->
        AuthService.validateUser email1 password1 st
        = (inl (UnauthorizedException "Credenciales inválidas"), st)).
Proof.
  intros st e1 p1 e2 p2 u Habsent Hfound Hwrong.
  handlers. unfold bind, Prisma.query, throw, ret.
  destruct (outage st) as [[|n]|]; cbn [users set_outage];
    rewrite ?Habsent, ?Hfound, ?Hwrong.
  - split; [reflexivity|]. split; [eexists; reflexivity|]. discriminate.
  - split; [reflexivity|]. split; [eexists; reflexivity|]. discriminate.
  - split; [reflexivity|]. split; [eexists; reflexivity|]. reflexivity.
Qed.

(** The two verifications on the populated store. *)
Lemma C7_validateUser_same_error_witness :
  Prisma.find_user_by_email "nobody@x.com" (users populated) = None
  /\ AuthService.validateUser "nobody@x.com" "pw1" populated
     = AuthService.validateUser "a@x.com" "guess" populated.
Proof.
  split; [reflexivity|].
  refine (proj1 (C7_validateUser_same_error populated "nobody@x.com" "pw1"
                   "a@x.com" "guess" _ _ _ _)); reflexivity.
Defined.

(** ** Revocation *)

(** C6: with the database up, [logoutAll] succeeds for every user, also one
    without sessions; it removes exactly the sessions of that user (their
    number is the difference of the table sizes), keeps every other session
    as it was and in place, and does not touch the users. *)
Theorem C6_logoutAll_deletes_exactly_own_sessions :
  forall (st : Store) (userId : Z),
    outage st = None ->
    exists st',
      AuthController.logoutAll userId st
      = (inr "Todas las sesiones cerradas", st')
      /\ sessions st'
         = filter (fun s => negb (Session.userId s =? userId)) (sessions st)
      /\ (forall s, In s (sessions st') <->
                    In s (sessions st) /\ Session.userId s <> userId)
      /\ length (sessions st)
         = (length (sessions st')
            + length (filter (fun s => (Session.userId s =? userId)%Z)
                        (sessions st)))%nat
      /\ users st' = users st.
Proof.
  intros st userId Hup.
  eexists. split.
  - run_up Hup. reflexivity.
  - cbn [sessions users set_sessions]. split; [reflexivity|].
    split; [|split; [|reflexivity]].
    + intros s. rewrite filter_In, negb_true_iff, Z.eqb_neq. reflexivity.
    + rewrite (filter_split_length
                 (fun s => Session.userId s =? userId) (sessions st)).
      lia.
Qed.

(** User 1 closes both sessions; the session of user 2 stays. *)
Lemma C6_logoutAll_deletes_exactly_own_sessions_witness :
  outage populated = None
  /\ exists st',
      AuthController.logoutAll 1 populated
      = (inr "Todas las sesiones cerradas", st')
      /\ map Session.jti (sessions st') = ["jti-2"]
      /\ length (sessions populated) = (length (sessions st') + 2)%nat.
Proof.
  split; [reflexivity|].
  destruct (C6_logoutAll_deletes_exactly_own_sessions populated 1 eq_refl)
    as (st' & Hrun & Hrows & _ & Hcount & _).
  exists st'. split; [exact Hrun|].
  rewrite Hcount, Hrows. split; reflexivity.
Defined.

(** A user without sessions: nothing is deleted and the call succeeds. *)
Example logoutAll_without_sessions :
  AuthController.logoutAll 9 populated
  = (inr "Todas las sesiones cerradas", populated).
Proof. reflexivity. Qed.

(** C5, as the code has it: [revokeSession] never answers [NotFound], leaves
    the users as they are, and removes session rows only when the lookup
    found a session with the id that the requester owns.  When the id
    reaches the handler as a number and the database is up, it throws
    [ForbiddenException] and changes nothing both when no session has the id
    and when the session belongs to another user; when the requester owns
    the session its row, and no other, is deleted. *)
Theorem C5_revokeSession_cases :
  forall (st : Store) (sessionId : RouteId) (userId : Z),
    let run := AuthController.revokeSession sessionId userId st in
    (forall message, fst run <> inl (NotFoundException message))
    /\ users (snd run) = users st
    /\ (sessions (snd run) = sessions st
        \/ exists n s,
             sessionId = IdNumber n
             /\ Prisma.find_session_by_id n (sessions st) = Some s
             /\ Session.userId s = userId
             /\ sessions (snd run)
                = filter (fun x => negb (Session.id x =? n)) (sessions st))
    /\ (forall n,
          sessionId = IdNumber n ->
          outage st = None ->
          (Prisma.find_session_by_id n (sessions st) = None ->
           run
           = (inl (ForbiddenException
                     "No autorizado para eliminar esta sesión"), st))
          /\ (forall s,
                Prisma.find_session_by_id n (sessions st) = Some s ->
                Session.userId s <> userId ->
                run
                = (inl (ForbiddenException
                          "No autorizado para eliminar esta sesión"), st))
          /\ (forall s,
                Prisma.find_session_by_id n (sessions st) = Some s ->
                Session.userId s = userId ->
                run
                = (inr "Sesión revocada correctamente",
                   set_sessions
                     (filter (fun x => negb (Session.id x =? n))
                        (sessions st)) st))).
Proof.
  intros st sessionId userId run. subst run.
  destruct sessionId as [n|text].
  - split; [|split; [|split]].
    + intros message. handlers. unfold bind, ret, throw, Prisma.query.
      destruct (outage st) as [[|[|k]]|] eqn:Houtage; store_cbn;
        repeat first [discriminate | next_answer].
    + handlers. unfold bind, ret, throw, Prisma.query.
      destruct (outage st) as [[|[|k]]|] eqn:Houtage; store_cbn;
        repeat first [reflexivity | next_answer].
    + handlers. unfold bind, ret, throw, Prisma.query.
      destruct (outage st) as [[|[|k]]|] eqn:Houtage; store_cbn;
        try (left; reflexivity);
        destruct (Prisma.find_session_by_id n (sessions st)) as [s|] eqn:Hs;
        store_cbn; try (left; reflexivity);
        destruct (Session.userId s =? userId) eqn:Hown; cbn [negb];
        store_cbn; try (left; reflexivity);
        rewrite ?Hs; store_cbn; try (left; reflexivity);
        right; exists n, s; apply Z.eqb_eq in Hown; repeat split;
        assumption.
    + intros n' [= <-] Hup. repeat split.
      * intros Hnone. run_up Hup. now rewrite Hnone.
      * intros s Hsome Hother. run_up Hup. rewrite Hsome.
        apply Z.eqb_neq in Hother. now rewrite Hother.
      * intros s Hsome Hown. run_up Hup. rewrite Hsome.
        apply Z.eqb_eq in Hown. rewrite Hown. cbn [negb].
        rewrite (query_up _ Hup). now rewrite Hsome.
  - split; [discriminate|]. split; [reflexivity|].
    split; [now left|]. discriminate.
Qed.

(** User 1 revokes, by number, a missing session, the session of user 2 and
    an own one. *)
Lemma C5_revokeSession_cases_witness :
  outage populated = None
  /\ AuthController.revokeSession (IdNumber 7) 1 populated
     = (inl (ForbiddenException "No autorizado para eliminar esta sesión"),
        populated)
  /\ AuthController.revokeSession (IdNumber 2) 1 populated
     = (inl (ForbiddenException "No autorizado para eliminar esta sesión"),
        populated)
  /\ map Session.id
       (sessions (snd (AuthController.revokeSession (IdNumber 3) 1
                         populated)))
     = [1; 2].
Proof.
  split; [reflexivity|].
  destruct (C5_revokeSession_cases populated (IdNumber 7) 1)
    as (_ & _ & _ & Hseven).
  destruct (C5_revokeSession_cases populated (IdNumber 2) 1)
    as (_ & _ & _ & Htwo).
  destruct (C5_revokeSession_cases populated (IdNumber 3) 1)
    as (_ & _ & _ & Hthree).
  destruct (Hseven 7 eq_refl eq_refl) as (Habsent & _).
  destruct (Htwo 2 eq_refl eq_refl) as (_ & Hother & _).
  destruct (Hthree 3 eq_refl eq_refl) as (_ & _ & Hown).
  split; [apply Habsent; reflexivity|].
  split.
  - refine (Hother _ _ _); [reflexivity|discriminate].
  - erewrite Hown; reflexivity.
Defined.

(** C5, as stated: a missing session id is answered with [NotFound].  On the
    populated store no session has id 7; revoking it is answered with
    [ForbiddenException] when the id is held as a number, and with the
    validation error of the database client when it is held as the text of
    the route. *)
Lemma C5_absent_session_is_forbidden :
  Prisma.find_session_by_id 7 (sessions populated) = None
  /\ AuthController.revokeSession (IdNumber 7) 1 populated
     = (inl (ForbiddenException "No autorizado para eliminar esta sesión"),
        populated)
  /\ AuthController.revokeSession (IdText "7") 1 populated
     = (inl PrismaClientValidationError, populated)
  /\ forall id message,
      In id [IdNumber 7; IdText "7"] ->
      fst (AuthController.revokeSession id 1 populated)
      <> inl (NotFoundException message).
Proof.
  split; [reflexivity|]. split; [reflexivity|]. split; [reflexivity|].
  intros id message [<-|[<-|[]]]; discriminate.
Qed.

(** ** Refresh *)

Example alice_token_is_the_login_cookie :
  fst (AuthController.login (env_at 120 "jti-1")
         (browser "a@x.com" "pw1" "firefox")
         (snd (AuthController.register (env_at 110 "") "b@x.com" "pw2" "B"
                 (snd (AuthController.register (env_at 100 "") "a@x.com"
                         "pw1" "A" empty_store)))))
  = inr {| AuthController.accessToken :=
             Jwt.sign (Jwt.mkClaims 1 None None) "access-secret" (Jwt.m 15) 120;
           AuthController.set_cookie :=
             AuthController.refresh_cookie alice_token |}.
Proof. reflexivity. Qed.

Example bob_register_token_is_what_register_returned :
  option_map AuthService.refresh_token
    (match fst (AuthController.register (env_at 110 "") "b@x.com" "pw2" "B"
                  (snd (AuthController.register (env_at 100 "") "a@x.com"
                          "pw1" "A" empty_store))) with
     | inr r => Some r
     | inl _ => None
     end)
  = Some bob_register_token.
Proof. reflexivity. Qed.

Lemma find_user_by_id_id (i : Z) (us : list User.t) (u : User.t) :
  Prisma.find_user_by_id i us = Some u -> User.id u = i /\ In u us.
Proof.
  intros H. apply find_some in H. destruct H as [Hin Heq].
  apply Z.eqb_eq in Heq. now split.
Qed.

Lemma find_session_by_jti_jti (j : string) (ss : list Session.t)
  (s : Session.t) :
  Prisma.find_session_by_jti j ss = Some s -> Session.jti s = j /\ In s ss.
Proof.
  intros H. apply find_some in H. destruct H as [Hin Heq].
  apply String.eqb_eq in Heq. now split.
Qed.

Lemma find_session_by_jti_none (j : string) (ss : list Session.t) :
  Prisma.find_session_by_jti j ss = None <->
  forall s, In s ss -> Session.jti s <> j.
Proof.
  split.
  - intros H s Hin Heq.
    apply (find_none _ _ H) in Hin. apply String.eqb_neq in Hin. contradiction.
  - intros H. destruct (Prisma.find_session_by_jti j ss) as [s|] eqn:Hs;
      [|reflexivity].
    apply find_session_by_jti_jti in Hs. destruct Hs as [Heq Hin].
    now destruct (H s Hin).
Qed.

Lemma find_session_by_jti_live (j : string) (ss : list Session.t) :
  (exists s, In s ss /\ Session.jti s = j) ->
  exists s', Prisma.find_session_by_jti j ss = Some s'.
Proof.
  intros (s & Hin & Heq).
  destruct (Prisma.find_session_by_jti j ss) as [s'|] eqn:Hs;
    [now exists s'|].
  rewrite find_session_by_jti_none in Hs. now destruct (Hs s Hin).
Qed.

Ltac refresh_lookups payload :=
  destruct (Prisma.find_user_by_id _ _) as [?user|] eqn:?Huser;
  [store_cbn;
   destruct (Jwt.jti (Jwt.claims payload)) as [?j|] eqn:?Hjti;
   store_cbn;
   [destruct (Prisma.find_session_by_jti _ _) as [?s|] eqn:?Hsession
   |destruct (head _) as [?s|] eqn:?Hsession]|].

(** Splits a run of [refreshToken] by the verdict of the codec, the state of
    the database and the answers of the two lookups. *)
Ltac refresh_cases payload :=
  handlers; unfold bind, try_catch, ret, throw, Prisma.query, session_for;
  destruct (Jwt.verify _ _ _) as [?e|payload] eqn:?Hverify;
  [|match goal with
    | |- context [outage ?st] =>
        destruct (outage st) as [[|[|?n]]|] eqn:?Houtage
    end;
    cbn [users sessions userSeq sessionSeq set_outage outage];
    [|destruct (Prisma.find_user_by_id _ _) as [?user|] eqn:?Huser; store_cbn
     |refresh_lookups payload|refresh_lookups payload]].

(** Every failure of [refreshToken] is the one of its [catch]. *)
Lemma refreshToken_inl (env : Env) (token : Jwt.Token) (st st' : Store)
  (e : Exception) :
  AuthService.refreshToken env token st = (inl e, st') ->
  e = UnauthorizedException "Token inválido".
Proof.
  refresh_cases payload;
    intros H; try discriminate H; injection H as <- _; reflexivity.
Qed.

(** [refreshToken] writes nothing. *)
Lemma refreshToken_frame (env : Env) (token : Jwt.Token) (st : Store) :
  users (snd (AuthService.refreshToken env token st)) = users st
  /\ sessions (snd (AuthService.refreshToken env token st)) = sessions st.
Proof.
  refresh_cases payload;
    split; reflexivity.
Qed.

(** A successful [refreshToken] went through every check. *)
Lemma refreshToken_inr (env : Env) (token : Jwt.Token) (st st' : Store)
  (pair : TokenPair.t) :
  AuthService.refreshToken env token st = (inr pair, st') ->
  exists payload user session,
    Jwt.verify token (JWT_REFRESH_SECRET (config env)) (now env) = inr payload
    /\ Prisma.find_user_by_id (Jwt.sub (Jwt.claims payload)) (users st)
       = Some user
    /\ session_for (Jwt.jti (Jwt.claims payload)) (sessions st) = Some session
    /\ pair
       = {| TokenPair.accessToken :=
              Jwt.sign (Jwt.mkClaims (User.id user) None None)
                (JWT_SECRET (config env)) (Jwt.m 15) (now env);
            TokenPair.refreshToken :=
              Jwt.sign
                (Jwt.mkClaims (User.id user) (Some (Session.jti session)) None)
                (JWT_REFRESH_SECRET (config env)) (Jwt.d 7) (now env) |}.
Proof.
  refresh_cases payload;
    intros H; try discriminate H; injection H as <- _;
    eexists; eexists; eexists;
    (split; [reflexivity|]); (split; [eassumption|]);
    (split; [|reflexivity]); rewrite ?Hjti;
    first [assumption | reflexivity].
Qed.

(** With the database up, [refreshToken] succeeds as soon as the token
    verifies, its subject exists and a session answers for its [jti]. *)
Lemma refreshToken_accepts (env : Env) (token : Jwt.Token) (st : Store)
  (payload : Jwt.Payload) (user : User.t) (session : Session.t) :
  outage st = None ->
  Jwt.verify token (JWT_REFRESH_SECRET (config env)) (now env) = inr payload ->
  Prisma.find_user_by_id (Jwt.sub (Jwt.claims payload)) (users st)
  = Some user ->
  session_for (Jwt.jti (Jwt.claims payload)) (sessions st) = Some session ->
  AuthService.refreshToken env token st
  = (inr {| TokenPair.accessToken :=
              Jwt.sign (Jwt.mkClaims (User.id user) None None)
                (JWT_SECRET (config env)) (Jwt.m 15) (now env);
            TokenPair.refreshToken :=
              Jwt.sign
                (Jwt.mkClaims (User.id user) (Some (Session.jti session)) None)
                (JWT_REFRESH_SECRET (config env)) (Jwt.d 7) (now env) |},
     st).
Proof.
  intros Hup Hverify Huser Hsession.
  run_up Hup. unfold AuthService.jwt_verify, session_for in *.
  rewrite Hverify. unfold ret, bind. rewrite (query_up _ Hup), Huser.
  rewrite (query_up _ Hup).
  destruct (Jwt.jti (Jwt.claims payload)); now rewrite Hsession.
Qed.

Lemma head_In {A : Type} (l : list A) (a : A) : head l = Some a -> In a l.
Proof. destruct l as [|b l]; [discriminate|]. intros [= ->]. now left. Qed.

Lemma session_for_In (jti : option string) (ss : list Session.t)
  (s : Session.t) :
  session_for jti ss = Some s ->
  In s ss /\ forall j, jti = Some j -> Session.jti s = j.
Proof.
  destruct jti as [j|]; cbn [session_for]; intros H.
  - apply find_session_by_jti_jti in H. destruct H as [Heq Hin].
    split; [exact Hin|]. now intros j' [= <-].
  - split; [now apply head_In|]. discriminate.
Qed.

(** C1, as the code has it: a successful refresh verified the presented
    token, found a stored session for it (the one with the token's [jti] when
    the token carries one), and returns an access token for the token's
    subject with 15 minutes to live and a refresh token for the same subject,
    carrying the [jti] of that session, with 7 days to live.  It writes
    nothing: the session rows and the user rows are the ones it found. *)
Theorem C1_refresh_reuses_jti_and_keeps_rows :
  forall (env : Env) (token : Jwt.Token) (st st' : Store)
         (pair : TokenPair.t),
    AuthService.refreshToken env token st = (inr pair, st') ->
    exists payload session,
      Jwt.verify token (JWT_REFRESH_SECRET (config env)) (now env)
      = inr payload
      /\ In session (sessions st)
      /\ (forall j, Jwt.jti (Jwt.claims payload) = Some j ->
                    Session.jti session = j)
      /\ TokenPair.accessToken pair
         = Jwt.sign (Jwt.mkClaims (Jwt.sub (Jwt.claims payload)) None None)
             (JWT_SECRET (config env)) (Jwt.m 15) (now env)
      /\ TokenPair.refreshToken pair
         = Jwt.sign
             (Jwt.mkClaims (Jwt.sub (Jwt.claims payload))
                (Some (Session.jti session)) None)
             (JWT_REFRESH_SECRET (config env)) (Jwt.d 7) (now env)
      /\ sessions st' = sessions st
      /\ users st' = users st.
Proof.
  intros env token st st' pair Hrun.
  destruct (refreshToken_inr env token st st' pair Hrun)
    as (payload & user & session & Hverify & Huser & Hsession & ->).
  destruct (find_user_by_id_id _ _ _ Huser) as [Hid _].
  destruct (session_for_In _ _ _ Hsession) as [Hin Hjti].
  destruct (refreshToken_frame env token st) as [Husers Hsessions].
  rewrite Hrun in Husers, Hsessions. cbn [snd] in Husers, Hsessions.
  exists payload, session. cbn [TokenPair.accessToken TokenPair.refreshToken].
  rewrite Hid. repeat split; assumption.
Qed.

(** The refresh of the first session of [a@x.com] at time 500. *)
Lemma C1_refresh_reuses_jti_and_keeps_rows_witness :
  AuthService.refreshToken (env_at 500 "") alice_token populated
  = (inr alice_refreshed, populated)
  /\ exists payload session,
      Jwt.verify alice_token "refresh-secret" 500 = inr payload
      /\ In session (sessions populated)
      /\ (forall j, Jwt.jti (Jwt.claims payload) = Some j ->
                    Session.jti session = j)
      /\ TokenPair.accessToken alice_refreshed
         = Jwt.sign (Jwt.mkClaims (Jwt.sub (Jwt.claims payload)) None None)
             "access-secret" (Jwt.m 15) 500
      /\ TokenPair.refreshToken alice_refreshed
         = Jwt.sign
             (Jwt.mkClaims (Jwt.sub (Jwt.claims payload))
                (Some (Session.jti session)) None)
             "refresh-secret" (Jwt.d 7) 500
      /\ sessions populated = sessions populated
      /\ users populated = users populated.
Proof.
  split; [reflexivity|].
  exact (C1_refresh_reuses_jti_and_keeps_rows (env_at 500 "") alice_token
           populated populated alice_refreshed eq_refl).
Defined.

(** C1, as stated: the refresh stores the new refresh token in the session
    row.  The refresh of the first session of [a@x.com] at time 500 succeeds,
    the table afterwards is the table before, the row with that [jti] holds
    the token of the login, and no row holds the refresh token just
    returned. *)
Lemma C1_refresh_leaves_session_row :
  AuthService.refreshToken (env_at 500 "") alice_token populated
  = (inr alice_refreshed, populated)
  /\ Prisma.find_session_by_jti "jti-1" (sessions populated)
     = Some alice_session
  /\ Session.refreshToken alice_session = alice_token
  /\ alice_token <> TokenPair.refreshToken alice_refreshed
  /\ forall s, In s (sessions populated) ->
               Session.refreshToken s <> TokenPair.refreshToken alice_refreshed.
Proof.
  split; [reflexivity|]. split; [reflexivity|]. split; [reflexivity|].
  split; [discriminate|].
  intros s Hin. vm_compute in Hin.
  destruct Hin as [<-|[<-|[<-|[]]]]; discriminate.
Qed.

(** A token that carries a [jti] is turned away when no session has it. *)
Lemma refresh_rejects_dead_session (env : Env) (token : Jwt.Token)
  (st : Store) (payload : Jwt.Payload) (j : string) :
  Jwt.verify token (JWT_REFRESH_SECRET (config env)) (now env) = inr payload ->
  Jwt.jti (Jwt.claims payload) = Some j ->
  (forall s, In s (sessions st) -> Session.jti s <> j) ->
  fst (AuthService.refreshToken env token st)
  = inl (UnauthorizedException "Token inválido").
Proof.
  intros Hverify Hjti Hdead.
  destruct (AuthService.refreshToken env token st) as [[e|pair] st'] eqn:Hrun;
    cbn [fst].
  - now rewrite (refreshToken_inl _ _ _ _ _ Hrun).
  - destruct (refreshToken_inr _ _ _ _ _ Hrun)
      as (payload' & user & session & Hverify' & _ & Hsession & _).
    rewrite Hverify in Hverify'. injection Hverify' as <-.
    destruct (session_for_In _ _ _ Hsession) as [Hin Hj].
    now destruct (Hdead session Hin (Hj j Hjti)).
Qed.

(** C2 at the refresh token [register] hands out, which carries no [jti]:
    user 2 has closed all sessions, no session row is theirs, and the refresh
    with their registration token is accepted all the same; the pair it
    returns is bound to the [jti] of the first row of the table, a session of
    user 1. *)
Theorem C2_refresh_accepts_token_without_jti :
  (forall s, In s (sessions bob_logged_out) -> Session.userId s <> 2)
  /\ (exists payload,
        Jwt.verify bob_register_token "refresh-secret" 500 = inr payload
        /\ Jwt.jti (Jwt.claims payload) = None)
  /\ AuthService.refreshToken (env_at 500 "") bob_register_token
       bob_logged_out
     = (inr {| TokenPair.accessToken :=
                 Jwt.sign (Jwt.mkClaims 2 None None) "access-secret"
                   (Jwt.m 15) 500;
               TokenPair.refreshToken :=
                 Jwt.sign (Jwt.mkClaims 2 (Some "jti-1") None)
                   "refresh-secret" (Jwt.d 7) 500 |},
        bob_logged_out).
Proof.
  split.
  - intros s Hin. vm_compute in Hin.
    destruct Hin as [<-|[<-|[]]]; discriminate.
  - split; [|reflexivity].
    eexists. split; reflexivity.
Qed.

(** C10: a refresh token that verifies is turned away with
    [UnauthorizedException] when no user has the id of its subject, whatever
    the session table holds; nothing is written. *)
Theorem C10_refresh_requires_user :
  forall (env : Env) (token : Jwt.Token) (st : Store)
         (payload : Jwt.Payload),
    Jwt.verify token (JWT_REFRESH_SECRET (config env)) (now env)
    = inr payload ->
    Prisma.find_user_by_id (Jwt.sub (Jwt.claims payload)) (users st) = None ->
    fst (AuthService.refreshToken env token st)
    = inl (UnauthorizedException "Token inválido")
    /\ users (snd (AuthService.refreshToken env token st)) = users st
    /\ sessions (snd (AuthService.refreshToken env token st)) = sessions st.
Proof.
  intros env token st payload Hverify Hnobody.
  split; [|apply refreshToken_frame].
  destruct (AuthService.refreshToken env token st) as [[e|pair] st'] eqn:Hrun;
    cbn [fst].
  - now rewrite (refreshToken_inl _ _ _ _ _ Hrun).
  - destruct (refreshToken_inr _ _ _ _ _ Hrun)
      as (payload' & user & session & Hverify' & Huser & _).
    rewrite Hverify in Hverify'. injection Hverify' as <-.
    rewrite Hnobody in Huser. discriminate Huser.
Qed.

(** The session of user 2 is live, the user row is gone. *)
Lemma C10_refresh_requires_user_witness :
  (exists s, Prisma.find_session_by_jti "jti-2" (sessions orphaned) = Some s)
  /\ Prisma.find_user_by_id 2 (users orphaned) = None
  /\ AuthService.refreshToken (env_at 500 "") bob_token orphaned
     = (inl (UnauthorizedException "Token inválido"), orphaned).
Proof.
  split; [eexists; reflexivity|]. split; [reflexivity|].
  assert (H := C10_refresh_requires_user (env_at 500 "") bob_token orphaned
                 _ eq_refl eq_refl).
  destruct H as [H _].
  destruct (AuthService.refreshToken (env_at 500 "") bob_token orphaned)
    as [r st'] eqn:Hrun.
  cbn [fst] in H. rewrite H. f_equal.
  vm_compute in Hrun. now injection Hrun as _ <-.
Defined.

(** The same token is accepted while the user row is there. *)
Example bob_token_accepted :
  exists pair,
    AuthService.refreshToken (env_at 500 "") bob_token populated
    = (inr pair, populated).
Proof. eexists. reflexivity. Qed.

(** ** The legacy logout *)

Lemma find_user_by_id_map (f : User.t -> User.t) (i : Z) (us : list User.t) :
  (forall u, User.id (f u) = User.id u) ->
  Prisma.find_user_by_id i (map f us)
  = option_map f (Prisma.find_user_by_id i us).
Proof.
  intros Hid. unfold Prisma.find_user_by_id.
  induction us as [|u us IH]; cbn [map find option_map]; [reflexivity|].
  rewrite Hid. destruct (User.id u =? i); [reflexivity|exact IH].
Qed.

(** The outcome of [refreshToken] reads the user table only through the
    existence of the subject. *)
Lemma refreshToken_same_ids (env : Env) (token : Jwt.Token) (st : Store)
  (f : User.t -> User.t) :
  (forall u, User.id (f u) = User.id u) ->
  fst (AuthService.refreshToken env token (set_users (map f (users st)) st))
  = fst (AuthService.refreshToken env token st).
Proof.
  intros Hid.
  handlers. unfold bind, try_catch, ret, throw, Prisma.query.
  destruct (Jwt.verify _ _ _) as [e|payload]; [reflexivity|].
  store_fields.
  destruct (outage st) as [[|[|n]]|] eqn:Houtage; store_cbn;
    rewrite ?find_user_by_id_map by exact Hid;
    try reflexivity;
    destruct (Prisma.find_user_by_id _ (users st)) as [user|];
    store_cbn; try reflexivity;
    rewrite ?Hid;
    destruct (Jwt.jti (Jwt.claims payload)) as [j|];
    store_cbn;
    match goal with
    | |- context [Prisma.find_session_by_jti ?j ?ss] =>
        destruct (Prisma.find_session_by_jti j ss)
    | |- context [head ?ss] => destruct (head ss)
    end; reflexivity.
Qed.

(** C9: with the database up, the legacy [logout] leaves the session table as
    it is and changes the user table in one field only, the stored refresh
    token of that user, which becomes null.  Every refresh has the outcome it
    had before the logout; so the refresh token bound to a live session of
    that user, which verifies and whose subject exists, is accepted after the
    logout. *)
Theorem C9_logout_keeps_sessions :
  forall (st : Store) (userId : Z),
    outage st = None ->
    exists r st',
      AuthService.logout userId st = (r, st')
      /\ sessions st' = sessions st
      /\ users st'
         = map (fun u => if User.id u =? userId
                         then User.set_refreshToken None u else u) (users st)
      /\ (forall env token,
            fst (AuthService.refreshToken env token st')
            = fst (AuthService.refreshToken env token st))
      /\ (forall env token payload s u,
            In s (sessions st) ->
            Session.userId s = userId ->
            Prisma.find_user_by_id userId (users st) = Some u ->
            Jwt.verify token (JWT_REFRESH_SECRET (config env)) (now env)
            = inr payload ->
            Jwt.sub (Jwt.claims payload) = userId ->
            Jwt.jti (Jwt.claims payload) = Some (Session.jti s) ->
            exists pair,
              fst (AuthService.refreshToken env token st') = inr pair).
Proof.
  intros st userId Hup.
  set (f := fun u => if User.id u =? userId
                     then User.set_refreshToken None u else u).
  assert (Hid : forall u, User.id (f u) = User.id u).
  { intros u. unfold f. now destruct (User.id u =? userId). }
  assert (Hmap : forall us, Prisma.find_user_by_id userId us = None ->
                            map f us = us).
  { induction us as [|u us IH]; [reflexivity|].
    unfold Prisma.find_user_by_id. cbn [find map]. unfold f at 1.
    destruct (User.id u =? userId); [discriminate|].
    intros H. now rewrite (IH H). }
  assert (Hrun : exists r,
             AuthService.logout userId st
             = (r, set_users (map f (users st)) st)).
  { run_up Hup.
    destruct (Prisma.find_user_by_id userId (users st)) as [u|] eqn:Hu.
    - eexists. reflexivity.
    - rewrite (Hmap _ Hu). destruct st. eexists. reflexivity. }
  destruct Hrun as [r Hrun].
  exists r, (set_users (map f (users st)) st).
  split; [exact Hrun|]. split; [reflexivity|]. split; [reflexivity|].
  split.
  - intros env token. now apply refreshToken_same_ids.
  - intros env token payload s u Hin Hown Hu Hverify Hsub Hjti.
    rewrite refreshToken_same_ids by exact Hid.
    destruct (find_session_by_jti_live (Session.jti s) (sessions st))
      as [s' Hs']; [now exists s|].
    eexists.
    erewrite refreshToken_accepts; [reflexivity|exact Hup|exact Hverify| |].
    + rewrite Hsub. exact Hu.
    + rewrite Hjti. exact Hs'.
Qed.

(** User 1 logs out the legacy way and refreshes the first session. *)
Lemma C9_logout_keeps_sessions_witness :
  outage populated = None
  /\ exists r st',
      AuthService.logout 1 populated = (r, st')
      /\ sessions st' = sessions populated
      /\ map User.refreshToken (users st')
         = [None; nth 1 (map User.refreshToken (users populated)) None]
      /\ exists pair,
           fst (AuthService.refreshToken (env_at 500 "") alice_token st')
           = inr pair.
Proof.
  split; [reflexivity|].
  destruct (C9_logout_keeps_sessions populated 1 eq_refl)
    as (r & st' & Hrun & Hsessions & Husers & _ & Hlive).
  exists r, st'. split; [exact Hrun|]. split; [exact Hsessions|].
  split; [rewrite Husers; reflexivity|].
  refine (Hlive (env_at 500 "") alice_token _ alice_session _ _ eq_refl _
            eq_refl eq_refl eq_refl).
  - left. reflexivity.
  - reflexivity.
Defined.

(** ** Token lifetimes *)

(** A successful [login] returns the pair it signed. *)
Lemma login_inr (env : Env) (user : User.t) (req : Request) (st st' : Store)
  (pair : TokenPair.t) :
  AuthService.login env user req st = (inr pair, st') ->
  pair
  = {| TokenPair.accessToken :=
         Jwt.sign (Jwt.mkClaims (User.id user) None None)
           (JWT_SECRET (config env)) (Jwt.m 15) (now env);
       TokenPair.refreshToken :=
         Jwt.sign (Jwt.mkClaims (User.id user) (Some (randomUUID env)) None)
           (JWT_REFRESH_SECRET (config env)) (Jwt.d 7) (now env) |}.
Proof.
  handlers. unfold bind, ret, throw, Prisma.query.
  destruct (outage st) as [[|n]|]; store_fields;
    try discriminate;
    destruct (Prisma.find_session_by_jti _ _); try discriminate;
    destruct (Prisma.find_user_by_id _ _); try discriminate;
    now intros [= <- _].
Qed.

Lemma verify_sign (c : Jwt.Claims) (secret : string) (life : Jwt.Duration)
  (T t : Z) :
  Jwt.verify (Jwt.sign c secret life T) secret t
  = if t <=? T + Jwt.seconds life
    then inr {| Jwt.claims := c; Jwt.iat := T;
                Jwt.exp := T + Jwt.seconds life |}
    else inl Jwt.TokenExpiredError.
Proof.
  unfold Jwt.verify, Jwt.sign. rewrite String.eqb_refl. reflexivity.
Qed.

(** C8: the access token of a pair minted at time [T], by [login] or by
    [refreshToken], verifies at every time up to and including [T] plus 15
    minutes and fails with [TokenExpiredError] at every later time; the
    refresh token of the pair does so with 7 days. *)
Theorem C8_token_lifetimes :
  forall (env : Env) (pair : TokenPair.t),
    (exists user req st st',
        AuthService.login env user req st = (inr pair, st'))
    \/ (exists token st st',
          AuthService.refreshToken env token st = (inr pair, st')) ->
    forall t : Z,
      (t <= now env + 15 * 60 ->
       exists p, Jwt.verify (TokenPair.accessToken pair)
                   (JWT_SECRET (config env)) t = inr p)
      /\ (now env + 15 * 60 < t ->
          Jwt.verify (TokenPair.accessToken pair) (JWT_SECRET (config env)) t
          = inl Jwt.TokenExpiredError)
      /\ (t <= now env + 7 * 24 * 60 * 60 ->
          exists p, Jwt.verify (TokenPair.refreshToken pair)
                      (JWT_REFRESH_SECRET (config env)) t = inr p)
      /\ (now env + 7 * 24 * 60 * 60 < t ->
          Jwt.verify (TokenPair.refreshToken pair)
            (JWT_REFRESH_SECRET (config env)) t
          = inl Jwt.TokenExpiredError).
Proof.
  intros env pair Hminted t.
  assert (Hpair : exists sub jti,
             pair
             = {| TokenPair.accessToken :=
                    Jwt.sign (Jwt.mkClaims sub None None)
                      (JWT_SECRET (config env)) (Jwt.m 15) (now env);
                  TokenPair.refreshToken :=
                    Jwt.sign (Jwt.mkClaims sub (Some jti) None)
                      (JWT_REFRESH_SECRET (config env)) (Jwt.d 7)
                      (now env) |}).
  { destruct Hminted as [(user & req & st & st' & Hrun)
                        |(token & st & st' & Hrun)].
    - apply login_inr in Hrun. eauto.
    - apply refreshToken_inr in Hrun.
      destruct Hrun as (payload & user & session & _ & _ & _ & ->). eauto. }
  destruct Hpair as (sub & jti & ->).
  cbn [TokenPair.accessToken TokenPair.refreshToken].
  rewrite !verify_sign. cbn [Jwt.seconds].
  repeat split; intros Ht.
  - apply Z.leb_le in Ht. rewrite Ht. eauto.
  - apply Z.leb_gt in Ht. now rewrite Ht.
  - replace (7 * 24 * 60 * 60) with 604800 in * by reflexivity.
    apply Z.leb_le in Ht. rewrite Ht. eauto.
  - replace (7 * 24 * 60 * 60) with 604800 in * by reflexivity.
    apply Z.leb_gt in Ht. now rewrite Ht.
Qed.

(** The pair minted at time 500: 900 and 604800 seconds later, and one more. *)
Lemma C8_token_lifetimes_witness :
  AuthService.refreshToken (env_at 500 "") alice_token populated
  = (inr alice_refreshed, populated)
  /\ (exists p, Jwt.verify (TokenPair.accessToken alice_refreshed)
                  "access-secret" 1400 = inr p)
  /\ Jwt.verify (TokenPair.accessToken alice_refreshed) "access-secret" 1401
     = inl Jwt.TokenExpiredError
  /\ (exists p, Jwt.verify (TokenPair.refreshToken alice_refreshed)
                  "refresh-secret" 605300 = inr p)
  /\ Jwt.verify (TokenPair.refreshToken alice_refreshed) "refresh-secret"
       605301
     = inl Jwt.TokenExpiredError.
Proof.
  split; [reflexivity|].
  assert (Hminted :
            (exists user req st st',
                AuthService.login (env_at 500 "") user req st
                = (inr alice_refreshed, st'))
            \/ (exists token st st',
                  AuthService.refreshToken (env_at 500 "") token st
                  = (inr alice_refreshed, st'))).
  { right. exists alice_token, populated, populated. reflexivity. }
  destruct (C8_token_lifetimes (env_at 500 "") alice_refreshed Hminted 1400)
    as (Ha & _ & _ & _).
  destruct (C8_token_lifetimes (env_at 500 "") alice_refreshed Hminted 1401)
    as (_ & Hb & _ & _).
  destruct (C8_token_lifetimes (env_at 500 "") alice_refreshed Hminted 605300)
    as (_ & _ & Hc & _).
  destruct (C8_token_lifetimes (env_at 500 "") alice_refreshed Hminted 605301)
    as (_ & _ & _ & Hd).
  split; [apply Ha; cbn; lia|]. split; [apply Hb; cbn; lia|].
  split; [apply Hc; cbn; lia|]. apply Hd; cbn; lia.
Defined.

(** ** Registration *)

Lemma map_clear_fresh (f : User.t -> User.t) (i : Z) (us : list User.t) :
  (forall u, In u us -> User.id u <> i) ->
  map (fun x => if User.id x =? i then f x else x) us = us.
Proof.
  induction us as [|u us IH]; intros Hfresh; cbn [map]; [reflexivity|].
  assert (Hu : User.id u <> i) by (apply Hfresh; now left).
  apply Z.eqb_neq in Hu. rewrite Hu. f_equal.
  apply IH. intros v Hv. apply Hfresh. now right.
Qed.

Lemma find_user_by_id_last (u : User.t) (us : list User.t) :
  (forall v, In v us -> User.id v <> User.id u) ->
  Prisma.find_user_by_id (User.id u) (us ++ [u]) = Some u.
Proof.
  intros Hfresh. unfold Prisma.find_user_by_id.
  induction us as [|v us IH]; cbn [app find].
  - now rewrite Z.eqb_refl.
  - assert (Hv : User.id v <> User.id u) by (apply Hfresh; now left).
    apply Z.eqb_neq in Hv. rewrite Hv.
    apply IH. intros w Hw. apply Hfresh. now right.
Qed.

(** C3, as the code has it: with the database up and the id sequence ahead
    of the ids in use, [register] fails with the unique-constraint error of
    the user store, writing nothing, when a user has the email; otherwise it
    hashes the password, creates the user, signs an access token (15 minutes)
    and a refresh token (7 days) over the subject and the email, neither with
    a [jti], stores the hash of the refresh token in the user row, creates no
    session, and returns both tokens with the id, email and name of the
    user. *)
Theorem C3_register_stores_hash_on_user_row :
  forall (env : Env) (email password name : string) (st : Store),
    outage st = None ->
    (forall u, In u (users st) -> User.id u <> userSeq st) ->
    (forall u, Prisma.find_user_by_email email (users st) = Some u ->
               AuthService.register env email password name st
               = (inl (PrismaClientKnownRequestError P2002), st))
    /\ (Prisma.find_user_by_email email (users st) = None ->
        let claims := Jwt.mkClaims (userSeq st) None (Some email) in
        let access :=
          Jwt.sign claims (JWT_SECRET (config env)) (Jwt.m 15) (now env) in
        let refresh :=
          Jwt.sign claims (JWT_REFRESH_SECRET (config env)) (Jwt.d 7)
            (now env) in
        let row :=
          {| User.id := userSeq st; User.email := email;
             User.password := Bcrypt.hash password 10 (salt0 env);
             User.name := name; User.createdAt := now env;
             User.refreshToken :=
               Some (Bcrypt.hash refresh 10 (salt1 env)) |} in
        exists st',
          AuthService.register env email password name st
          = (inr {| AuthService.access_token := access;
                    AuthService.refresh_token := refresh;
                    AuthService.user :=
                      {| AuthService.id := userSeq st;
                         AuthService.email := email;
                         AuthService.name := name |} |}, st')
          /\ users st' = (users st ++ [row])%list
          /\ sessions st' = sessions st).
Proof.
  intros env email password name st Hup Hfresh. split.
  - intros u Htaken. run_up Hup. now rewrite Htaken.
  - intros Hfree claims access refresh row.
    eexists. split; [|split].
    + run_up Hup. rewrite Hfree. unfold Prisma.query. store_cbn.
      set (u := {| User.id := userSeq st; User.email := email;
                   User.password := Bcrypt.hash password 10 (salt0 env);
                   User.name := name; User.createdAt := now env;
                   User.refreshToken := None |}).
      change (userSeq st) with (User.id u) at 1.
      rewrite (find_user_by_id_last u (users st)) by exact Hfresh.
      reflexivity.
    + store_fields. rewrite map_app.
      rewrite (map_clear_fresh _ _ _ Hfresh).
      cbn [map User.id User.set_refreshToken User.email User.password
           User.name User.createdAt].
      rewrite Z.eqb_refl. reflexivity.
    + reflexivity.
Qed.

(** A taken email and a free one on the populated store. *)
Lemma C3_register_stores_hash_on_user_row_witness :
  outage populated = None
  /\ AuthService.register (env_at 200 "") "a@x.com" "pw9" "A2" populated
     = (inl (PrismaClientKnownRequestError P2002), populated)
  /\ exists st',
      AuthService.register (env_at 200 "") "c@x.com" "pw3" "C" populated
      = (inr {| AuthService.access_token :=
                  Jwt.sign (Jwt.mkClaims 3 None (Some "c@x.com"))
                    "access-secret" (Jwt.m 15) 200;
                AuthService.refresh_token :=
                  Jwt.sign (Jwt.mkClaims 3 None (Some "c@x.com"))
                    "refresh-secret" (Jwt.d 7) 200;
                AuthService.user :=
                  {| AuthService.id := 3; AuthService.email := "c@x.com";
                     AuthService.name := "C" |} |}, st')
      /\ map User.email (users st') = ["a@x.com"; "b@x.com"; "c@x.com"]
      /\ sessions st' = sessions populated.
Proof.
  assert (Hfresh : forall u, In u (users populated) ->
                             User.id u <> userSeq populated).
  { intros u Hin. vm_compute in Hin.
    destruct Hin as [<-|[<-|[]]]; discriminate. }
  split; [reflexivity|]. split.
  - destruct (C3_register_stores_hash_on_user_row (env_at 200 "") "a@x.com"
                "pw9" "A2" populated eq_refl Hfresh) as [Htaken _].
    refine (Htaken _ _). reflexivity.
  - destruct (C3_register_stores_hash_on_user_row (env_at 200 "") "c@x.com"
                "pw3" "C" populated eq_refl Hfresh) as [_ Hfree].
    destruct (Hfree eq_refl) as (st' & Hrun & Husers & Hsessions).
    exists st'. split; [exact Hrun|]. split; [|exact Hsessions].
    rewrite Husers. reflexivity.
Defined.

(** C3, as stated: [register] mints a refresh token with a fresh [jti] and
    creates a session, as [login] does.  The first registration on the empty
    store succeeds, leaves the session table empty, and its refresh token
    carries no [jti]. *)
Lemma C3_register_creates_no_session :
  exists r st',
    AuthService.register (env_at 100 "") "a@x.com" "pw1" "A" empty_store
    = (inr r, st')
    /\ sessions st' = []
    /\ exists payload,
        Jwt.verify (AuthService.refresh_token r) "refresh-secret" 100
        = inr payload
        /\ Jwt.jti (Jwt.claims payload) = None.
Proof.
  eexists. eexists. split; [cbv; reflexivity|]. split; [reflexivity|].
  eexists. split; reflexivity.
Qed.

(** [login] of the same user does both. *)
Example login_creates_session :
  exists pair st',
    AuthService.login (env_at 120 "jti-1")
      {| User.id := 1; User.email := "a@x.com";
         User.password := Bcrypt.hash "pw1" 10 "salt-a"; User.name := "A";
         User.createdAt := 100; User.refreshToken := None |}
      (browser "a@x.com" "pw1" "firefox")
      (snd (AuthService.register (env_at 100 "") "a@x.com" "pw1" "A"
              empty_store))
    = (inr pair, st')
    /\ map (fun s => (Session.jti s, Session.refreshToken s)) (sessions st')
       = [("jti-1", TokenPair.refreshToken pair)]
    /\ TokenPair.refreshToken pair = alice_token.
Proof.
  eexists. eexists. split; [cbv; reflexivity|]. split; reflexivity.
Qed.

(** ** Storage failures *)




(** The same when the database stops answering between the user lookup and
    the session lookup. *)
Example refresh_reports_late_outage_as_unauthorized :
  fst (Prisma.session_findFirst_jti (Some "jti-1")
         (set_outage (Some 0%nat) populated))
  = inl (PrismaClientKnownRequestError P1001)
  /\ fst (AuthService.refreshToken (env_at 500 "") alice_token
            (set_outage (Some 1%nat) populated))
     = inl (UnauthorizedException "Token inválido").
Proof. split; reflexivity. Qed.

(** Outside the refresh, an outage at any query of a handler surfaces as
    [P1001]: the outcome is either that error or the outcome the handler has
    on the same tables with the database up. *)
Lemma storage_failure_surfaces (st : Store) :
  let down := PrismaClientKnownRequestError P1001 in
  let up := set_outage None st in
  (forall email password,
      fst (AuthService.validateUser email password st) = inl down
      \/ fst (AuthService.validateUser email password st)
         = fst (AuthService.validateUser email password up))
  /\ (forall env user req,
        fst (AuthService.login env user req st) = inl down
        \/ fst (AuthService.login env user req st)
           = fst (AuthService.login env user req up))
  /\ (forall env email password name,
        fst (AuthService.register env email password name st) = inl down
        \/ fst (AuthService.register env email password name st)
           = fst (AuthService.register env email password name up))
  /\ (forall userId,
        fst (AuthService.logout userId st) = inl down
        \/ fst (AuthService.logout userId st)
           = fst (AuthService.logout userId up))
  /\ (forall userId,
        fst (AuthService.getProfile userId st) = inl down
        \/ fst (AuthService.getProfile userId st)
           = fst (AuthService.getProfile userId up))
  /\ (forall userId,
        fst (AuthController.getSessions userId st) = inl down
        \/ fst (AuthController.getSessions userId st)
           = fst (AuthController.getSessions userId up))
  /\ (forall sessionId userId,
        fst (AuthController.revokeSession sessionId userId st) = inl down
        \/ fst (AuthController.revokeSession sessionId userId st)
           = fst (AuthController.revokeSession sessionId userId up))
  /\ (forall userId,
        fst (AuthController.logoutAll userId st) = inl down
        \/ fst (AuthController.logoutAll userId st)
           = fst (AuthController.logoutAll userId up)).
Proof.
  intros down up. subst down up.
  repeat split; intros;
    try match goal with id : RouteId |- _ => destruct id end;
    handlers; unfold bind, try_catch, ret, throw, Prisma.query;
    destruct (outage st) as [[|[|?]]|] eqn:Houtage; store_cbn;
    repeat first [now left | now right | next_answer].
Qed.

(** With the database up no handler reports [P1001]. *)
Lemma no_storage_failure_when_up (st : Store) :
  outage st = None ->
  let down := PrismaClientKnownRequestError P1001 in
  (forall email password,
      fst (AuthService.validateUser email password st) <> inl down)
  /\ (forall env user req, fst (AuthService.login env user req st) <> inl down)
  /\ (forall env email password name,
        fst (AuthService.register env email password name st) <> inl down)
  /\ (forall userId, fst (AuthService.logout userId st) <> inl down)
  /\ (forall userId, fst (AuthService.getProfile userId st) <> inl down)
  /\ (forall userId, fst (AuthController.getSessions userId st) <> inl down)
  /\ (forall sessionId userId,
        fst (AuthController.revokeSession sessionId userId st) <> inl down)
  /\ (forall userId, fst (AuthController.logoutAll userId st) <> inl down)
  /\ (forall env token,
        fst (AuthService.refreshToken env token st) <> inl down).
Proof.
  intros Houtage down. subst down.
  repeat split; intros;
    try match goal with id : RouteId |- _ => destruct id end;
    handlers; unfold bind, try_catch, ret, throw, Prisma.query;
    store_cbn;
    repeat first [discriminate | next_answer];
    try (destruct (Jwt.verify _ _ _); store_cbn;
         repeat first [discriminate | next_answer]).
Qed.

(** ** Login followed by refresh *)

Lemma find_session_by_jti_app (j : string) (ss : list Session.t)
  (s : Session.t) :
  Prisma.find_session_by_jti j ss = None ->
  Session.jti s = j ->
  Prisma.find_session_by_jti j (ss ++ [s]) = Some s.
Proof.
  unfold Prisma.find_session_by_jti.
  induction ss as [|x ss IH]; cbn [app find]; intros Hnone Hj.
  - apply String.eqb_eq in Hj. now rewrite Hj.
  - destruct (String.eqb (Session.jti x) j); [discriminate|]. now apply IH.
Qed.

(** With the database up, the refresh token of a login at time [T] is
    accepted by [refreshToken] at every time up to [T] plus 7 days and turned
    away with [UnauthorizedException] afterwards. *)
Lemma refresh_window (env env' : Env) (user : User.t) (req : Request)
  (st st' : Store) (pair : TokenPair.t) :
  outage st = None ->
  config env' = config env ->
  AuthService.login env user req st = (inr pair, st') ->
  (now env' <= now env + 7 * 24 * 60 * 60 ->
   exists pair',
     AuthService.refreshToken env' (TokenPair.refreshToken pair) st'
     = (inr pair', st'))
  /\ (now env + 7 * 24 * 60 * 60 < now env' ->
      AuthService.refreshToken env' (TokenPair.refreshToken pair) st'
      = (inl (UnauthorizedException "Token inválido"), st')).
Proof.
  intros Hup Hconfig Hlogin.
  assert (Hpair := login_inr _ _ _ _ _ _ Hlogin).
  revert Hlogin. run_up Hup.
  destruct (Prisma.find_session_by_jti (randomUUID env) (sessions st))
    eqn:Hunique; [discriminate|].
  destruct (Prisma.find_user_by_id (User.id user) (users st)) as [u|]
    eqn:Huser; [|discriminate].
  intros [= _ <-]. subst pair. cbn [TokenPair.refreshToken].
  split; intros Ht.
  - eexists. eapply refreshToken_accepts.
    + exact Hup.
    + rewrite Hconfig, verify_sign. cbn [Jwt.seconds].
      apply Z.leb_le in Ht. rewrite Ht. reflexivity.
    + cbn [Jwt.claims Jwt.sub users set_sessionSeq set_sessions].
      exact Huser.
    + cbn [Jwt.claims Jwt.jti session_for sessions set_sessionSeq
           set_sessions].
      now apply find_session_by_jti_app.
  - handlers. unfold bind, try_catch, ret, throw.
    rewrite Hconfig, verify_sign. cbn [Jwt.seconds].
    apply Z.leb_gt in Ht. now rewrite Ht.
Qed.

(** * Further properties *)

(** ** The constraints of the schema are kept *)

Lemma Store_ok_set_outage (o : option nat) (st : Store) :
  Store_ok st -> Store_ok (set_outage o st).
Proof. intros H. exact H. Qed.

Lemma NoDup_map_filter {A B : Type} (g : A -> B) (p : A -> bool)
  (l : list A) :
  NoDup (map g l) -> NoDup (map g (filter p l)).
Proof.
  induction l as [|a l IH]; cbn [map filter]; intros H; [exact H|].
  inversion H as [|? ? Hnotin Hrest]; subst.
  destruct (p a); cbn [map]; [|now apply IH].
  constructor; [|now apply IH].
  intros Hin. apply Hnotin. apply in_map_iff in Hin.
  destruct Hin as (x & Hx & Hfx). apply filter_In in Hfx.
  apply in_map_iff. exists x. now split.
Qed.

Lemma NoDup_map_snoc {A B : Type} (g : A -> B) (l : list A) (a : A) :
  NoDup (map g l) -> ~ In (g a) (map g l) -> NoDup (map g (l ++ [a])).
Proof.
  induction l as [|x l IH]; cbn [map app]; intros Hnd Hnew.
  - constructor; [intros []|constructor].
  - inversion Hnd as [|? ? Hx Hrest]; subst. constructor.
    + rewrite map_app, in_app_iff. cbn [map In].
      intros [Hin|[Heq|[]]]; [now apply Hx|].
      apply Hnew. left. now symmetry.
    + apply IH; [exact Hrest|]. intros Hin. apply Hnew. now right.
Qed.

Lemma NoDup_map_inj {A B : Type} (g : A -> B) (l : list A) (x y : A) :
  NoDup (map g l) -> In x l -> In y l -> g x = g y -> x = y.
Proof.
  induction l as [|a l IH]; cbn [map]; intros Hnd Hx Hy Heq; [destruct Hx|].
  inversion Hnd as [|? ? Ha Hrest]; subst.
  destruct Hx as [<-|Hx], Hy as [<-|Hy].
  - reflexivity.
  - destruct Ha. rewrite Heq. now apply in_map.
  - destruct Ha. rewrite <- Heq. now apply in_map.
  - now apply IH.
Qed.

Lemma find_user_by_email_none (e : string) (us : list User.t) :
  Prisma.find_user_by_email e us = None -> ~ In e (map User.email us).
Proof.
  intros Hnone Hin. apply in_map_iff in Hin. destruct Hin as (u & Heq & Hin).
  apply (find_none _ _ Hnone) in Hin. apply String.eqb_neq in Hin.
  contradiction.
Qed.

Lemma find_session_by_jti_not_in (j : string) (ss : list Session.t) :
  Prisma.find_session_by_jti j ss = None -> ~ In j (map Session.jti ss).
Proof.
  intros Hnone Hin. apply in_map_iff in Hin. destruct Hin as (s & Heq & Hin).
  rewrite find_session_by_jti_none in Hnone. now apply (Hnone s Hin).
Qed.

Lemma preserves_ret {A : Type} (a : A) : preserves (ret a).
Proof. intros st H. exact H. Qed.

Lemma preserves_throw {A : Type} (e : Exception) : preserves (@throw A e).
Proof. intros st H. exact H. Qed.

Lemma preserves_bind {A B : Type} (c : M A) (k : A -> M B) :
  preserves c -> (forall a, preserves (k a)) -> preserves (bind c k).
Proof.
  intros Hc Hk st Hok. unfold bind. specialize (Hc st Hok).
  destruct (c st) as [[e|a] st']; cbn [snd] in *; [exact Hc|].
  now apply Hk.
Qed.

Lemma preserves_try_catch {A : Type} (c : M A) (h : Exception -> M A) :
  preserves c -> (forall e, preserves (h e)) -> preserves (try_catch c h).
Proof.
  intros Hc Hh st Hok. unfold try_catch. specialize (Hc st Hok).
  destruct (c st) as [[e|a] st']; cbn [snd] in *; [|exact Hc].
  now apply Hh.
Qed.

Lemma preserves_query : preserves Prisma.query.
Proof.
  intros st Hok. unfold Prisma.query.
  destruct (outage st) as [[|n]|]; exact Hok.
Qed.

Lemma preserves_user_create (email : string) (password : Bcrypt.Hash string)
  (name : string) (now : Z) :
  preserves (Prisma.user_create email password name now).
Proof.
  apply preserves_bind; [apply preserves_query|]. intros _ st Hok.
  destruct (Prisma.find_user_by_email email (users st)) eqn:Hfree;
    [exact Hok|].
  destruct Hok as (Hid & Hemail & Hsid & Hjti & Hseq & Hsseq & Hfk).
  unfold Store_ok. store_fields.
  repeat split; try assumption.
  - apply NoDup_map_snoc; [exact Hid|]. cbn [User.id].
    intros Hin. apply in_map_iff in Hin. destruct Hin as (u & Heq & Hin).
    specialize (Hseq u Hin). lia.
  - apply NoDup_map_snoc; [exact Hemail|]. cbn [User.email].
    now apply find_user_by_email_none.
  - intros u Hin. apply in_app_iff in Hin. destruct Hin as [Hin|[<-|[]]].
    + specialize (Hseq u Hin). lia.
    + cbn [User.id]. lia.
  - intros s Hin. destruct (Hfk s Hin) as (u & Hu & Heq).
    exists u. split; [|exact Heq]. apply in_app_iff. now left.
Qed.

Lemma preserves_user_findUnique_email (email : string) :
  preserves (Prisma.user_findUnique_email email).
Proof.
  apply preserves_bind; [apply preserves_query|]. intros _ st Hok. exact Hok.
Qed.

Lemma preserves_user_findUnique_id (id : Z) :
  preserves (Prisma.user_findUnique_id id).
Proof.
  apply preserves_bind; [apply preserves_query|]. intros _ st Hok. exact Hok.
Qed.

Lemma preserves_user_update_refreshToken (id : Z)
  (v : option (Bcrypt.Hash Jwt.Token)) :
  preserves (Prisma.user_update_refreshToken id v).
Proof.
  apply preserves_bind; [apply preserves_query|]. intros _ st Hok.
  destruct (Prisma.find_user_by_id id (users st)); [|exact Hok].
  destruct Hok as (Hid & Hemail & Hsid & Hjti & Hseq & Hsseq & Hfk).
  set (f := fun x => if User.id x =? id
                     then User.set_refreshToken v x else x).
  assert (Hfid : forall x, User.id (f x) = User.id x).
  { intros x. unfold f. now destruct (User.id x =? id). }
  assert (Hfemail : forall x, User.email (f x) = User.email x).
  { intros x. unfold f. now destruct (User.id x =? id). }
  unfold Store_ok. store_fields. fold f.
  rewrite !map_map.
  rewrite (map_ext _ _ Hfid), (map_ext _ _ Hfemail).
  repeat split; try assumption.
  - intros u Hin. apply in_map_iff in Hin. destruct Hin as (x & <- & Hin).
    rewrite Hfid. now apply Hseq.
  - intros s Hin. destruct (Hfk s Hin) as (u & Hu & Heq).
    exists (f u). split; [now apply in_map|]. now rewrite Hfid.
Qed.

Lemma preserves_session_create (userId : Z) (jti : string)
  (refreshToken : Jwt.Token) (userAgent ip : string) (now : Z) :
  preserves (Prisma.session_create userId jti refreshToken userAgent ip now).
Proof.
  apply preserves_bind; [apply preserves_query|]. intros _ st Hok.
  destruct (Prisma.find_session_by_jti jti (sessions st)) eqn:Hunique;
    [exact Hok|].
  destruct (Prisma.find_user_by_id userId (users st)) as [u|] eqn:Huser;
    [|exact Hok].
  destruct Hok as (Hid & Hemail & Hsid & Hjti & Hseq & Hsseq & Hfk).
  unfold Store_ok. store_fields.
  repeat split; try assumption.
  - apply NoDup_map_snoc; [exact Hsid|]. cbn [Session.id].
    intros Hin. apply in_map_iff in Hin. destruct Hin as (s & Heq & Hin).
    specialize (Hsseq s Hin). lia.
  - apply NoDup_map_snoc; [exact Hjti|]. cbn [Session.jti].
    now apply find_session_by_jti_not_in.
  - intros s Hin. apply in_app_iff in Hin. destruct Hin as [Hin|[<-|[]]].
    + specialize (Hsseq s Hin). lia.
    + cbn [Session.id]. lia.
  - intros s Hin. apply in_app_iff in Hin. destruct Hin as [Hin|[<-|[]]].
    + now apply Hfk.
    + apply find_user_by_id_id in Huser. destruct Huser as [Heq Hu].
      exists u. now split.
Qed.

Lemma preserves_session_findFirst_jti (jti : option string) :
  preserves (Prisma.session_findFirst_jti jti).
Proof.
  apply preserves_bind; [apply preserves_query|]. intros _ st Hok.
  destruct jti; exact Hok.
Qed.

Lemma preserves_session_findUnique (id : RouteId) :
  preserves (Prisma.session_findUnique id).
Proof.
  destruct id as [i|text]; [|apply preserves_throw].
  apply preserves_bind; [apply preserves_query|]. intros _ st Hok. exact Hok.
Qed.

Lemma Store_ok_filter_sessions (p : Session.t -> bool) (st : Store) :
  Store_ok st -> Store_ok (set_sessions (filter p (sessions st)) st).
Proof.
  intros (Hid & Hemail & Hsid & Hjti & Hseq & Hsseq & Hfk).
  unfold Store_ok. store_fields.
  repeat split; try assumption; try (now apply NoDup_map_filter).
  - intros s Hin. apply filter_In in Hin. now apply Hsseq.
  - intros s Hin. apply filter_In in Hin. now apply Hfk.
Qed.

Lemma preserves_session_delete (id : RouteId) :
  preserves (Prisma.session_delete id).
Proof.
  destruct id as [i|text]; [|apply preserves_throw].
  apply preserves_bind; [apply preserves_query|]. intros _ st Hok.
  destruct (Prisma.find_session_by_id i (sessions st)); [|exact Hok].
  now apply Store_ok_filter_sessions.
Qed.

Lemma preserves_session_deleteMany (userId : Z) :
  preserves (Prisma.session_deleteMany userId).
Proof.
  apply preserves_bind; [apply preserves_query|]. intros _ st Hok.
  now apply Store_ok_filter_sessions.
Qed.

Lemma preserves_session_findMany (userId : Z) :
  preserves (Prisma.session_findMany userId).
Proof.
  apply preserves_bind; [apply preserves_query|]. intros _ st Hok. exact Hok.
Qed.

(** Runs through a handler built from the client calls above. *)
Ltac keeps :=
  repeat first
    [ apply preserves_ret
    | apply preserves_throw
    | apply preserves_user_create
    | apply preserves_user_findUnique_email
    | apply preserves_user_findUnique_id
    | apply preserves_user_update_refreshToken
    | apply preserves_session_create
    | apply preserves_session_findFirst_jti
    | apply preserves_session_findUnique
    | apply preserves_session_delete
    | apply preserves_session_deleteMany
    | apply preserves_session_findMany
    | apply preserves_try_catch; [|intros ?]
    | apply preserves_bind; [|intros ?]
    | match goal with
      | |- preserves (match ?x with _ => _ end) => destruct x
      end
    | progress cbv zeta ].

(** Unfolds the handlers down to the client calls. *)
Ltac services :=
  unfold AuthController.register, AuthController.login, AuthController.refresh,
    AuthController.logout, AuthController.getProfile,
    AuthController.getSessions, AuthController.revokeSession,
    AuthController.logoutAll, LegacyAuthController.refreshTokens,
    AuthService.validateUser, AuthService.login, AuthService.register,
    AuthService.logout, AuthService.getProfile, AuthService.generateTokens,
    AuthService.refreshToken, AuthService.refreshToken_body,
    AuthService.jwt_verify,
    UsersService.create, UsersService.findByEmail, UsersService.findById,
    UsersService.updateRefreshToken.

Lemma preserves_validateUser (email password : string) :
  preserves (AuthService.validateUser email password).
Proof. services. keeps. Qed.

Lemma preserves_login (env : Env) (user : User.t) (req : Request) :
  preserves (AuthService.login env user req).
Proof. services. keeps. Qed.

Lemma preserves_register (env : Env) (email password name : string) :
  preserves (AuthService.register env email password name).
Proof. services. keeps. Qed.

Lemma preserves_logout (userId : Z) : preserves (AuthService.logout userId).
Proof. services. keeps. Qed.

Lemma preserves_getProfile (userId : Z) :
  preserves (AuthService.getProfile userId).
Proof. services. keeps. Qed.

Lemma preserves_refreshToken (env : Env) (token : Jwt.Token) :
  preserves (AuthService.refreshToken env token).
Proof. services. keeps. Qed.

Lemma preserves_controller_login (env : Env) (req : Request) :
  preserves (AuthController.login env req).
Proof. services. keeps. Qed.

Lemma preserves_controller_refresh (env : Env) (req : Request) :
  preserves (AuthController.refresh env req).
Proof. services. keeps. Qed.

Lemma preserves_getSessions (userId : Z) :
  preserves (AuthController.getSessions userId).
Proof. services. keeps. Qed.

Lemma preserves_revokeSession (sessionId : RouteId) (userId : Z) :
  preserves (AuthController.revokeSession sessionId userId).
Proof. services. keeps. Qed.

Lemma preserves_logoutAll (userId : Z) :
  preserves (AuthController.logoutAll userId).
Proof. services. keeps. Qed.

Lemma preserves_refreshTokens
  (compare : Jwt.Token -> Bcrypt.Hash Jwt.Token -> bool) (env : Env)
  (userId : Z) (token : Jwt.Token) :
  preserves (LegacyAuthController.refreshTokens compare env userId token).
Proof. services. keeps. Qed.

Lemma Store_ok_empty : Store_ok empty_store.
Proof.
  unfold Store_ok, empty_store. cbn.
  repeat split; try constructor; intros ? [].
Qed.

Lemma Store_ok_populated : Store_ok populated.
Proof.
  unfold Store_ok. vm_compute.
  repeat split;
    try (repeat constructor; cbn [In]; intuition (discriminate || lia));
    try (intros x Hin; repeat (destruct Hin as [<-|Hin]);
         try (destruct Hin); reflexivity).
  intros s Hin.
  destruct Hin as [<-|[<-|[<-|[]]]]; eexists;
    [split; [left; reflexivity|reflexivity]
    |split; [right; left; reflexivity|reflexivity]
    |split; [left; reflexivity|reflexivity]].
Qed.

(** ** Revocation reaches the refresh and nothing else *)

Lemma find_session_by_jti_filter (j : string) (p : Session.t -> bool)
  (ss : list Session.t) (x : Session.t) :
  Prisma.find_session_by_jti j ss = Some x ->
  p x = true ->
  Prisma.find_session_by_jti j (filter p ss) = Some x.
Proof.
  unfold Prisma.find_session_by_jti.
  induction ss as [|y ss IH]; cbn [find filter]; [discriminate|].
  destruct (String.eqb (Session.jti y) j) eqn:Hy.
  - intros [= ->] Hp. rewrite Hp. cbn [find]. now rewrite Hy.
  - intros Hfind Hp. destruct (p y); cbn [find]; rewrite ?Hy; now apply IH.
Qed.

Lemma filtered_out_jti_is_gone (p : Session.t -> bool) (ss : list Session.t)
  (s : Session.t) :
  NoDup (map Session.jti ss) -> In s ss -> p s = false ->
  forall x, In x (filter p ss) -> Session.jti x <> Session.jti s.
Proof.
  intros Hnd Hs Hp x Hx Heq. apply filter_In in Hx. destruct Hx as [Hx Hpx].
  assert (x = s) by (eapply NoDup_map_inj; eassumption).
  subst x. congruence.
Qed.

(** The refresh token of a row that a deletion removed is turned away. *)
Lemma refresh_after_filter_dead (env : Env) (token : Jwt.Token) (st : Store)
  (p : Session.t -> bool) (payload : Jwt.Payload) (s : Session.t) :
  Store_ok st -> In s (sessions st) -> p s = false ->
  Jwt.verify token (JWT_REFRESH_SECRET (config env)) (now env) = inr payload ->
  Jwt.jti (Jwt.claims payload) = Some (Session.jti s) ->
  fst (AuthService.refreshToken env token
         (set_sessions (filter p (sessions st)) st))
  = inl (UnauthorizedException "Token inválido").
Proof.
  intros (_ & _ & _ & Hjti & _) Hs Hp Hverify Hj.
  eapply refresh_rejects_dead_session; [exact Hverify|exact Hj|].
  cbn [sessions set_sessions]. now apply filtered_out_jti_is_gone.
Qed.

(** The refresh token of a row that a deletion kept is answered as before. *)
Lemma refresh_after_filter_live (env : Env) (token : Jwt.Token)
  (st st0 : Store) (p : Session.t -> bool) (pair : TokenPair.t)
  (payload : Jwt.Payload) (j : string) (x : Session.t) :
  outage st = None ->
  AuthService.refreshToken env token st = (inr pair, st0) ->
  Jwt.verify token (JWT_REFRESH_SECRET (config env)) (now env) = inr payload ->
  Jwt.jti (Jwt.claims payload) = Some j ->
  Prisma.find_session_by_jti j (sessions st) = Some x ->
  p x = true ->
  AuthService.refreshToken env token
    (set_sessions (filter p (sessions st)) st)
  = (inr pair, set_sessions (filter p (sessions st)) st).
Proof.
  intros Hup Hrun Hverify Hj Hx Hp.
  destruct (refreshToken_inr _ _ _ _ _ Hrun)
    as (payload' & user & session & Hverify' & Huser & Hsession & ->).
  rewrite Hverify in Hverify'. injection Hverify' as <-.
  rewrite Hj in Hsession. cbn [session_for] in Hsession.
  rewrite Hx in Hsession. injection Hsession as <-.
  apply (refreshToken_accepts env token _ payload user x);
    [exact Hup|exact Hverify|exact Huser|].
  rewrite Hj. cbn [session_for sessions set_sessions].
  now apply find_session_by_jti_filter.
Qed.

(** A session is revoked only by a call that holds its id as a number.
    Called as routed, with the id as the text of the path segment,
    [revokeSession] throws the validation error of the database client
    before any query and changes nothing, whatever the store.  Called with
    the number of an own session, on a store that meets the constraints and
    with the database up, it succeeds; afterwards every refresh token that
    carries the [jti] of the revoked session is turned away with
    [UnauthorizedException], and a refresh token bound to a session with
    another id that was accepted before is accepted with the same answer. *)
Theorem revokeSession_revokes_one_session :
  forall (st : Store) (userId : Z),
    (forall text,
        AuthController.revokeSession (IdText text) userId st
        = (inl PrismaClientValidationError, st))
    /\ (forall sessionId s,
          Store_ok st ->
          outage st = None ->
          Prisma.find_session_by_id sessionId (sessions st) = Some s ->
          Session.userId s = userId ->
          exists st',
            AuthController.revokeSession (IdNumber sessionId) userId st
            = (inr "Sesión revocada correctamente", st')
            /\ (forall env token payload,
                  Jwt.verify token (JWT_REFRESH_SECRET (config env)) (now env)
                  = inr payload ->
                  Jwt.jti (Jwt.claims payload) = Some (Session.jti s) ->
                  fst (AuthService.refreshToken env token st')
                  = inl (UnauthorizedException "Token inválido"))
            /\ (forall env token payload pair st0 j x,
                  AuthService.refreshToken env token st = (inr pair, st0) ->
                  Jwt.verify token (JWT_REFRESH_SECRET (config env)) (now env)
                  = inr payload ->
                  Jwt.jti (Jwt.claims payload) = Some j ->
                  Prisma.find_session_by_jti j (sessions st) = Some x ->
                  Session.id x <> sessionId ->
                  AuthService.refreshToken env token st' = (inr pair, st'))).
Proof.
  intros st userId. split; [reflexivity|].
  intros sessionId s Hok Hup Hs Hown.
  eexists. split; [|split].
  - run_up Hup. rewrite Hs. apply Z.eqb_eq in Hown. rewrite Hown.
    cbn [negb]. rewrite (query_up _ Hup), Hs. reflexivity.
  - intros env token payload Hverify Hj.
    apply find_some in Hs. destruct Hs as [Hin Hid].
    eapply refresh_after_filter_dead; try eassumption.
    cbn beta. now rewrite Hid.
  - intros env token payload pair st0 j x Hrun Hverify Hj Hx Hother.
    eapply refresh_after_filter_live; try eassumption.
    cbn beta. apply Z.eqb_neq in Hother. now rewrite Hother.
Qed.

(** User 1 revokes the first session, as routed and then by number: the
    routed call leaves its token accepted; after the call by number the
    token is turned away and the token of the session of user 2 is answered
    as before. *)
Lemma revokeSession_revokes_one_session_witness :
  Store_ok populated
  /\ AuthController.revokeSession (IdText "1") 1 populated
     = (inl PrismaClientValidationError, populated)
  /\ exists st',
      AuthController.revokeSession (IdNumber 1) 1 populated
      = (inr "Sesión revocada correctamente", st')
      /\ fst (AuthService.refreshToken (env_at 500 "") alice_token st')
         = inl (UnauthorizedException "Token inválido")
      /\ fst (AuthService.refreshToken (env_at 500 "") bob_token st')
         = fst (AuthService.refreshToken (env_at 500 "") bob_token populated).
Proof.
  split; [exact Store_ok_populated|].
  destruct (revokeSession_revokes_one_session populated 1) as [Hrouted Hnumber].
  split; [apply Hrouted|].
  destruct (Hnumber 1 alice_session Store_ok_populated eq_refl eq_refl
              eq_refl)
    as (st' & Hrun & Hdead & Hlive).
  exists st'. split; [exact Hrun|]. split.
  - refine (Hdead (env_at 500 "") alice_token _ eq_refl eq_refl).
  - erewrite (Hlive (env_at 500 "") bob_token _ _ populated "jti-2");
      [reflexivity|reflexivity|reflexivity|reflexivity|reflexivity
      |discriminate].
Defined.

(** [logoutAll] is effective and touches no other user: on a store that
    meets the constraints, with the database up, every refresh token that
    carries the [jti] of a session of the user is turned away once the rows
    are gone, and a refresh token bound to a session of another user that was
    accepted before is accepted with the same answer. *)
Theorem logoutAll_revokes_own_sessions_only :
  forall (st : Store) (userId : Z),
    Store_ok st ->
    outage st = None ->
    exists st',
      AuthController.logoutAll userId st
      = (inr "Todas las sesiones cerradas", st')
      /\ (forall env token payload s,
            In s (sessions st) ->
            Session.userId s = userId ->
            Jwt.verify token (JWT_REFRESH_SECRET (config env)) (now env)
            = inr payload ->
            Jwt.jti (Jwt.claims payload) = Some (Session.jti s) ->
            fst (AuthService.refreshToken env token st')
            = inl (UnauthorizedException "Token inválido"))
      /\ (forall env token payload pair st0 j x,
            AuthService.refreshToken env token st = (inr pair, st0) ->
            Jwt.verify token (JWT_REFRESH_SECRET (config env)) (now env)
            = inr payload ->
            Jwt.jti (Jwt.claims payload) = Some j ->
            Prisma.find_session_by_jti j (sessions st) = Some x ->
            Session.userId x <> userId ->
            AuthService.refreshToken env token st' = (inr pair, st')).
Proof.
  intros st userId Hok Hup.
  eexists. split; [|split].
  - run_up Hup. reflexivity.
  - intros env token payload s Hin Hown Hverify Hj.
    eapply refresh_after_filter_dead; try eassumption.
    cbn beta. apply Z.eqb_eq in Hown. now rewrite Hown.
  - intros env token payload pair st0 j x Hrun Hverify Hj Hx Hother.
    eapply refresh_after_filter_live; try eassumption.
    cbn beta. apply Z.eqb_neq in Hother. now rewrite Hother.
Qed.

(** User 1 closes all sessions: the token of the first is turned away, the
    token of the session of user 2 is answered as before. *)
Lemma logoutAll_revokes_own_sessions_only_witness :
  Store_ok populated
  /\ exists st',
      AuthController.logoutAll 1 populated
      = (inr "Todas las sesiones cerradas", st')
      /\ fst (AuthService.refreshToken (env_at 500 "") alice_token st')
         = inl (UnauthorizedException "Token inválido")
      /\ fst (AuthService.refreshToken (env_at 500 "") bob_token st')
         = fst (AuthService.refreshToken (env_at 500 "") bob_token populated).
Proof.
  split; [exact Store_ok_populated|].
  destruct (logoutAll_revokes_own_sessions_only populated 1
              Store_ok_populated eq_refl)
    as (st' & Hrun & Hdead & Hlive).
  exists st'. split; [exact Hrun|]. split.
  - refine (Hdead (env_at 500 "") alice_token _ alice_session _ eq_refl
              eq_refl eq_refl).
    left. reflexivity.
  - erewrite (Hlive (env_at 500 "") bob_token _ _ populated "jti-2");
      [reflexivity|reflexivity|reflexivity|reflexivity|reflexivity
      |discriminate].
Defined.

(** ** Registration composed with the other handlers *)

Lemma find_user_by_email_last (u : User.t) (us : list User.t) :
  Prisma.find_user_by_email (User.email u) us = None ->
  Prisma.find_user_by_email (User.email u) (us ++ [u]) = Some u.
Proof.
  unfold Prisma.find_user_by_email.
  induction us as [|v us IH]; cbn [app find].
  - now rewrite String.eqb_refl.
  - destruct (String.eqb (User.email v) (User.email u)); [discriminate|].
    exact IH.
Qed.

Lemma Store_ok_fresh_user_id (st : Store) :
  Store_ok st -> forall u, In u (users st) -> User.id u <> userSeq st.
Proof.
  intros (_ & _ & _ & _ & Hseq & _) u Hin. specialize (Hseq u Hin). lia.
Qed.

(** The row [register] leaves for a new user and the store around it. *)
Lemma register_up (env : Env) (email password name : string) (st : Store) :
  Store_ok st ->
  outage st = None ->
  Prisma.find_user_by_email email (users st) = None ->
  let claims := Jwt.mkClaims (userSeq st) None (Some email) in
  let refresh :=
    Jwt.sign claims (JWT_REFRESH_SECRET (config env)) (Jwt.d 7) (now env) in
  let row :=
    {| User.id := userSeq st; User.email := email;
       User.password := Bcrypt.hash password 10 (salt0 env);
       User.name := name; User.createdAt := now env;
       User.refreshToken := Some (Bcrypt.hash refresh 10 (salt1 env)) |} in
  AuthService.register env email password name st
  = (inr {| AuthService.access_token :=
              Jwt.sign claims (JWT_SECRET (config env)) (Jwt.m 15) (now env);
            AuthService.refresh_token := refresh;
            AuthService.user :=
              {| AuthService.id := userSeq st; AuthService.email := email;
                 AuthService.name := name |} |},
     {| users := users st ++ [row]; sessions := sessions st;
        userSeq := userSeq st + 1; sessionSeq := sessionSeq st;
        outage := None |}).
Proof.
  intros Hok Hup Hfree claims refresh row.
  assert (Hfresh := Store_ok_fresh_user_id st Hok).
  run_up Hup. rewrite Hfree. unfold Prisma.query. store_cbn.
  set (u := {| User.id := userSeq st; User.email := email;
               User.password := Bcrypt.hash password 10 (salt0 env);
               User.name := name; User.createdAt := now env;
               User.refreshToken := None |}).
  change (userSeq st) with (User.id u) at 1.
  rewrite (find_user_by_id_last u (users st)) by exact Hfresh.
  unfold set_users, set_userSeq. store_fields.
  rewrite map_app, (map_clear_fresh _ _ _ Hfresh).
  cbn [map User.id User.set_refreshToken User.email User.password
       User.name User.createdAt u].
  rewrite Z.eqb_refl, Hup. reflexivity.
Qed.

(** Register, then read the profile, then register again: with the database
    up, on a store that meets the constraints and has no user with the
    email, [getProfile] of the id that [register] returned answers with the
    very user fields [register] returned and writes nothing, and a second
    [register] with that email, whatever the password and the name, fails
    with the unique-constraint error and writes nothing. *)
Theorem register_then_profile_and_again :
  forall (env env' : Env) (email password name password' name' : string)
         (st : Store),
    Store_ok st ->
    outage st = None ->
    Prisma.find_user_by_email email (users st) = None ->
    exists r st1,
      AuthService.register env email password name st = (inr r, st1)
      /\ AuthService.getProfile (AuthService.id (AuthService.user r)) st1
         = (inr (AuthService.user r), st1)
      /\ AuthService.register env' email password' name' st1
         = (inl (PrismaClientKnownRequestError P2002), st1).
Proof.
  intros env env' email password name password' name' st Hok Hup Hfree.
  eexists. eexists. split; [now apply register_up|].
  assert (Hfresh := Store_ok_fresh_user_id st Hok).
  set (row := {| User.id := userSeq st; User.email := email;
                 User.password := Bcrypt.hash password 10 (salt0 env);
                 User.name := name; User.createdAt := now env;
                 User.refreshToken := _ |}).
  split.
  - handlers. unfold bind, ret, throw, Prisma.query. store_fields.
    cbn [AuthService.id AuthService.user].
    change (userSeq st) with (User.id row) at 1.
    rewrite (find_user_by_id_last row (users st)) by exact Hfresh.
    reflexivity.
  - handlers. unfold bind, ret, throw, Prisma.query. store_fields.
    change email with (User.email row) at 1.
    rewrite (find_user_by_email_last row (users st)) by exact Hfree.
    reflexivity.
Qed.

(** A third user registers on the populated store. *)
Lemma register_then_profile_and_again_witness :
  Store_ok populated
  /\ exists r st1,
      AuthService.register (env_at 200 "") "c@x.com" "pw3" "C" populated
      = (inr r, st1)
      /\ AuthService.getProfile (AuthService.id (AuthService.user r)) st1
         = (inr (AuthService.user r), st1)
      /\ AuthService.register (env_at 300 "") "c@x.com" "other" "C2" st1
         = (inl (PrismaClientKnownRequestError P2002), st1).
Proof.
  split; [exact Store_ok_populated|].
  exact (register_then_profile_and_again (env_at 200 "") (env_at 300 "")
           "c@x.com" "pw3" "C" "other" "C2" populated Store_ok_populated
           eq_refl eq_refl).
Defined.

(** ** Login *)

(** The session row a login at [env] writes for [user] and [req]. *)
Lemma login_up (env : Env) (user u : User.t) (req : Request) (st : Store) :
  outage st = None ->
  Prisma.find_session_by_jti (randomUUID env) (sessions st) = None ->
  Prisma.find_user_by_id (User.id user) (users st) = Some u ->
  let refresh :=
    Jwt.sign (Jwt.mkClaims (User.id user) (Some (randomUUID env)) None)
      (JWT_REFRESH_SECRET (config env)) (Jwt.d 7) (now env) in
  let row :=
    {| Session.id := sessionSeq st; Session.userId := User.id user;
       Session.jti := randomUUID env;
       Session.userAgent := or_default (header_user_agent req) "unknown";
       Session.ip :=
         or_default (or_else (req_ip req) (remoteAddress req)) "unknown";
       Session.refreshToken := refresh;
       Session.createdAt := now env; Session.updatedAt := now env |} in
  AuthService.login env user req st
  = (inr {| TokenPair.accessToken :=
              Jwt.sign (Jwt.mkClaims (User.id user) None None)
                (JWT_SECRET (config env)) (Jwt.m 15) (now env);
            TokenPair.refreshToken := refresh |},
     {| users := users st; sessions := sessions st ++ [row];
        userSeq := userSeq st; sessionSeq := sessionSeq st + 1;
        outage := None |}).
Proof.
  intros Hup Hunique Huser refresh row.
  run_up Hup. rewrite Hunique, Huser.
  unfold set_sessionSeq, set_sessions. store_fields. now rewrite Hup.
Qed.

(** A login writes at most one row and binds it to the token it returns:
    whatever it answers, the users are untouched and the session rows that
    were there stay as they were, in place; it adds a row exactly when it
    succeeds, and that row holds the returned refresh token, the user's id
    and the [jti] signed into the token, which no row had before.  With the
    database up, a [jti] that is already in the table makes the login fail
    with the unique-constraint error. *)
Theorem login_adds_one_bound_session :
  forall (env : Env) (user : User.t) (req : Request) (st : Store),
    let run := AuthService.login env user req st in
    users (snd run) = users st
    /\ (forall e, fst run = inl e -> sessions (snd run) = sessions st)
    /\ (forall pair,
          fst run = inr pair ->
          Prisma.find_session_by_jti (randomUUID env) (sessions st) = None
          /\ TokenPair.refreshToken pair
             = Jwt.sign
                 (Jwt.mkClaims (User.id user) (Some (randomUUID env)) None)
                 (JWT_REFRESH_SECRET (config env)) (Jwt.d 7) (now env)
          /\ exists row,
              sessions (snd run) = (sessions st ++ [row])%list
              /\ Session.refreshToken row = TokenPair.refreshToken pair
              /\ Session.jti row = randomUUID env
              /\ Session.userId row = User.id user
              /\ Session.id row = sessionSeq st)
    /\ (forall s,
          outage st = None ->
          Prisma.find_session_by_jti (randomUUID env) (sessions st) = Some s ->
          run = (inl (PrismaClientKnownRequestError P2002), st)).
Proof.
  intros env user req st run. subst run.
  handlers. unfold bind, ret, throw, Prisma.query.
  destruct (outage st) as [[|n]|] eqn:Houtage; store_cbn;
    try (repeat split; intros; discriminate);
    destruct (Prisma.find_session_by_jti _ _) as [s|] eqn:Hunique;
    store_cbn;
    try (repeat split; intros; try discriminate; congruence);
    destruct (Prisma.find_user_by_id _ _) as [u|] eqn:Huser; store_cbn;
    try (repeat split; intros; try discriminate; congruence);
    (split; [reflexivity|]); (split; [discriminate|]);
    (split; [|discriminate]);
    intros pair [= <-]; (split; [reflexivity|]); (split; [reflexivity|]);
    eexists; repeat split.
Qed.

(** Register, then log in with the same email and password: with the
    database up, on a store that meets the constraints, has no user with the
    email and no session with the [jti] the login draws, the login succeeds;
    the access token and the cookie are signed for the id of the new user,
    the cookie expires after 7 days as the token it carries does, and the
    table gains one session, of that user, holding the token of the
    cookie. *)
Theorem register_then_login :
  forall (env env' : Env) (email password name : string) (req : Request)
         (st : Store),
    Store_ok st ->
    outage st = None ->
    Prisma.find_user_by_email email (users st) = None ->
    Prisma.find_session_by_jti (randomUUID env') (sessions st) = None ->
    body_email req = email ->
    body_password req = password ->
    let st1 := snd (AuthService.register env email password name st) in
    exists resp st2 row,
      AuthController.login env' req st1 = (inr resp, st2)
      /\ AuthController.accessToken resp
         = Jwt.sign (Jwt.mkClaims (userSeq st) None None)
             (JWT_SECRET (config env')) (Jwt.m 15) (now env')
      /\ AuthController.value (AuthController.set_cookie resp)
         = Jwt.sign (Jwt.mkClaims (userSeq st) (Some (randomUUID env')) None)
             (JWT_REFRESH_SECRET (config env')) (Jwt.d 7) (now env')
      /\ AuthController.maxAge (AuthController.set_cookie resp)
         = 1000 * Jwt.seconds (Jwt.d 7)
      /\ sessions st2 = (sessions st ++ [row])%list
      /\ Session.userId row = userSeq st
      /\ Session.jti row = randomUUID env'
      /\ Session.refreshToken row
         = AuthController.value (AuthController.set_cookie resp)
      /\ users st2 = users st1.
Proof.
  intros env env' email password name req st Hok Hup Hfree Hunique
    Hemail Hpassword st1. subst st1.
  rewrite (register_up env email password name st Hok Hup Hfree).
  cbn [snd].
  assert (Hfresh := Store_ok_fresh_user_id st Hok).
  set (row := {| User.id := userSeq st; User.email := email;
                 User.password := Bcrypt.hash password 10 (salt0 env);
                 User.name := name; User.createdAt := now env;
                 User.refreshToken := _ |}).
  set (st1 := {| users := users st ++ [row]; sessions := sessions st;
                 userSeq := userSeq st + 1; sessionSeq := sessionSeq st;
                 outage := None |}).
  assert (Hvalidate : AuthService.validateUser (body_email req)
                        (body_password req) st1 = (inr row, st1)).
  { unfold AuthService.validateUser, UsersService.findByEmail,
      Prisma.user_findUnique_email, bind, ret, throw, Prisma.query.
    cbn [outage st1 users]. rewrite Hemail.
    change email with (User.email row) at 1.
    rewrite (find_user_by_email_last row (users st)) by exact Hfree.
    rewrite Hpassword. cbn [User.password row Bcrypt.compare Bcrypt.hash].
    now rewrite String.eqb_refl. }
  assert (Hlogin := login_up env' row row req st1 eq_refl Hunique).
  cbn [users st1] in Hlogin.
  change (User.id row) with (userSeq st) in Hlogin at 1.
  change (userSeq st) with (User.id row) in Hlogin at 1.
  specialize (Hlogin (find_user_by_id_last row (users st) Hfresh)).
  cbv zeta in Hlogin.
  eexists. eexists. eexists. split.
  - unfold AuthController.login, bind. rewrite Hvalidate, Hlogin.
    unfold ret. reflexivity.
  - cbn. repeat split; reflexivity.
Qed.

(** A third user registers on the populated store and logs in. *)
Lemma register_then_login_witness :
  Store_ok populated
  /\ exists resp st2,
      AuthController.login (env_at 210 "jti-4")
        (browser "c@x.com" "pw3" "edge")
        (snd (AuthService.register (env_at 200 "") "c@x.com" "pw3" "C"
                populated))
      = (inr resp, st2)
      /\ map Session.jti (sessions st2) = ["jti-1"; "jti-2"; "jti-3"; "jti-4"]
      /\ AuthController.maxAge (AuthController.set_cookie resp) = 604800000.
Proof.
  split; [exact Store_ok_populated|].
  destruct (register_then_login (env_at 200 "") (env_at 210 "jti-4")
              "c@x.com" "pw3" "C" (browser "c@x.com" "pw3" "edge") populated
              Store_ok_populated eq_refl eq_refl eq_refl eq_refl eq_refl)
    as (resp & st2 & row & Hrun & _ & _ & Hage & Hsessions & _ & Hjti & _).
  exists resp, st2. split; [exact Hrun|].
  split; [|rewrite Hage; reflexivity].
  rewrite Hsessions, map_app. cbn [map]. rewrite Hjti. reflexivity.
Defined.

(** ** Refresh after refresh *)

Lemma verify_payload (token : Jwt.Token) (secret secret' : string)
  (t t' : Z) (p p' : Jwt.Payload) :
  Jwt.verify token secret t = inr p ->
  Jwt.verify token secret' t' = inr p' ->
  p = p'.
Proof.
  destruct token as [k q|raw]; cbn [Jwt.verify]; [|discriminate].
  destruct (String.eqb k secret); [|discriminate].
  destruct (t <=? Jwt.exp q); [|discriminate].
  destruct (String.eqb k secret'); [|discriminate].
  destruct (t' <=? Jwt.exp q); [|discriminate].
  congruence.
Qed.

(** A refresh uses up nothing: with the database up, after a refresh that
    succeeded, the refresh token it returned is accepted by a later refresh
    before its 7 days are over and yields a token with the same [jti]; and
    the token that was presented is accepted again as well, for as long as
    it verifies. *)
Theorem refresh_tokens_stay_usable :
  forall (env env' : Env) (token : Jwt.Token) (st st' : Store)
         (pair : TokenPair.t),
    outage st = None ->
    config env' = config env ->
    now env' < now env + 7 * 24 * 60 * 60 ->
    AuthService.refreshToken env token st = (inr pair, st') ->
    st' = st
    /\ (exists sub jti,
          TokenPair.refreshToken pair
          = Jwt.sign (Jwt.mkClaims sub (Some jti) None)
              (JWT_REFRESH_SECRET (config env)) (Jwt.d 7) (now env)
          /\ AuthService.refreshToken env' (TokenPair.refreshToken pair) st
             = (inr {| TokenPair.accessToken :=
                         Jwt.sign (Jwt.mkClaims sub None None)
                           (JWT_SECRET (config env)) (Jwt.m 15) (now env');
                       TokenPair.refreshToken :=
                         Jwt.sign (Jwt.mkClaims sub (Some jti) None)
                           (JWT_REFRESH_SECRET (config env)) (Jwt.d 7)
                           (now env') |}, st))
    /\ (forall payload,
          Jwt.verify token (JWT_REFRESH_SECRET (config env)) (now env')
          = inr payload ->
          exists pair',
            AuthService.refreshToken env' token st = (inr pair', st)).
Proof.
  intros env env' token st st' pair Hup Hconfig Hsoon Hrun.
  destruct (refreshToken_inr _ _ _ _ _ Hrun)
    as (payload & user & session & Hverify & Huser & Hsession & Hpair).
  assert (Hsame : st' = st).
  { rewrite (refreshToken_accepts env token st payload user session
               Hup Hverify Huser Hsession) in Hrun.
    now injection Hrun as _ <-. }
  split; [exact Hsame|]. split.
  - destruct (find_user_by_id_id _ _ _ Huser) as [Hid _].
    destruct (session_for_In _ _ _ Hsession) as [Hin _].
    destruct (find_session_by_jti_live (Session.jti session) (sessions st))
      as [s' Hs']; [now exists session|].
    destruct (find_session_by_jti_jti _ _ _ Hs') as [Hjti' _].
    exists (User.id user), (Session.jti session).
    subst pair. cbn [TokenPair.refreshToken]. split; [reflexivity|].
    rewrite <- Hjti' at 2. rewrite <- Hconfig.
    apply (refreshToken_accepts env' _ st
             {| Jwt.claims :=
                  Jwt.mkClaims (User.id user) (Some (Session.jti session))
                    None;
                Jwt.iat := now env;
                Jwt.exp := now env + Jwt.seconds (Jwt.d 7) |} user s').
    + exact Hup.
    + rewrite Hconfig, verify_sign. cbn [Jwt.seconds].
      assert (Hle : now env' <= now env + 7 * 24 * 60 * 60) by lia.
      apply Z.leb_le in Hle. now rewrite Hle.
    + cbn [Jwt.claims Jwt.sub]. rewrite Hid. exact Huser.
    + cbn [Jwt.claims Jwt.jti session_for]. exact Hs'.
  - intros payload' Hverify'.
    assert (payload' = payload) by (eapply verify_payload; eassumption).
    subst payload'. eexists.
    apply (refreshToken_accepts env' token st payload user session);
      [exact Hup|now rewrite Hconfig|exact Huser|exact Hsession].
Qed.

(** The first session of [a@x.com] is refreshed at time 500 and again at
    time 600, with the new token and with the old one. *)
Lemma refresh_tokens_stay_usable_witness :
  AuthService.refreshToken (env_at 500 "") alice_token populated
  = (inr alice_refreshed, populated)
  /\ (exists pair',
        AuthService.refreshToken (env_at 600 "")
          (TokenPair.refreshToken alice_refreshed) populated
        = (inr pair', populated))
  /\ (exists pair',
        AuthService.refreshToken (env_at 600 "") alice_token populated
        = (inr pair', populated)).
Proof.
  split; [reflexivity|].
  destruct (refresh_tokens_stay_usable (env_at 500 "") (env_at 600 "")
              alice_token populated populated alice_refreshed eq_refl eq_refl
              eq_refl eq_refl)
    as (_ & (sub & jti & Hpair & Hnew) & Hold).
  split; [eexists; exact Hnew|].
  apply (Hold {| Jwt.claims := Jwt.mkClaims 1 (Some "jti-1") None;
                 Jwt.iat := 120; Jwt.exp := 120 + 604800 |}).
  reflexivity.
Defined.

(** An access token is no refresh token: when the two secrets differ, the
    refresh turns away, with [UnauthorizedException] and without a query,
    every token signed under the access secret, the access tokens of
    [login], [refreshToken] and [register] among them, and every string that
    is no JWT. *)
Theorem refresh_rejects_access_tokens :
  forall (env : Env) (st : Store),
    JWT_SECRET (config env) <> JWT_REFRESH_SECRET (config env) ->
    (forall claims life T,
        AuthService.refreshToken env
          (Jwt.sign claims (JWT_SECRET (config env)) life T) st
        = (inl (UnauthorizedException "Token inválido"), st))
    /\ (forall raw,
          AuthService.refreshToken env (Jwt.Garbage raw) st
          = (inl (UnauthorizedException "Token inválido"), st))
    /\ (forall env0 user req st0 st1 pair,
          config env0 = config env ->
          AuthService.login env0 user req st0 = (inr pair, st1) ->
          AuthService.refreshToken env (TokenPair.accessToken pair) st
          = (inl (UnauthorizedException "Token inválido"), st))
    /\ (forall env0 token st0 st1 pair,
          config env0 = config env ->
          AuthService.refreshToken env0 token st0 = (inr pair, st1) ->
          AuthService.refreshToken env (TokenPair.accessToken pair) st
          = (inl (UnauthorizedException "Token inválido"), st))
    /\ (forall env0 email password name st0 st1 r,
          config env0 = config env ->
          AuthService.register env0 email password name st0 = (inr r, st1) ->
          AuthService.refreshToken env (AuthService.access_token r) st
          = (inl (UnauthorizedException "Token inválido"), st)).
Proof.
  intros env st Hdiffer.
  assert (Hsigned : forall claims life T,
             AuthService.refreshToken env
               (Jwt.sign claims (JWT_SECRET (config env)) life T) st
             = (inl (UnauthorizedException "Token inválido"), st)).
  { intros claims life T. handlers.
    unfold bind, try_catch, ret, throw, Jwt.verify, Jwt.sign.
    apply String.eqb_neq in Hdiffer. now rewrite Hdiffer. }
  split; [exact Hsigned|]. split; [reflexivity|]. split; [|split].
  - intros env0 user req st0 st1 pair Hconfig Hrun.
    apply login_inr in Hrun. subst pair. cbn [TokenPair.accessToken].
    rewrite Hconfig. apply Hsigned.
  - intros env0 token st0 st1 pair Hconfig Hrun.
    apply refreshToken_inr in Hrun.
    destruct Hrun as (payload & user & session & _ & _ & _ & ->).
    cbn [TokenPair.accessToken]. rewrite Hconfig. apply Hsigned.
  - intros env0 email password name st0 st1 r Hconfig.
    handlers. unfold bind, ret, throw, Prisma.query.
    destruct (outage st0) as [[|[|n]]|] eqn:Houtage; store_cbn;
      try discriminate;
      destruct (Prisma.find_user_by_email _ _); store_cbn; try discriminate;
      try (destruct (Prisma.find_user_by_id _ _); store_cbn;
           try discriminate);
      intros [= <- _]; cbn [AuthService.access_token TokenPair.accessToken];
      rewrite Hconfig; apply Hsigned.
Qed.

(** The access token of the refresh at time 500 is presented as refresh
    token. *)
Lemma refresh_rejects_access_tokens_witness :
  JWT_SECRET cfg <> JWT_REFRESH_SECRET cfg
  /\ AuthService.refreshToken (env_at 600 "")
       (TokenPair.accessToken alice_refreshed) populated
     = (inl (UnauthorizedException "Token inválido"), populated).
Proof.
  assert (Hdiffer : JWT_SECRET cfg <> JWT_REFRESH_SECRET cfg)
    by discriminate.
  split; [exact Hdiffer|].
  destruct (refresh_rejects_access_tokens (env_at 600 "") populated Hdiffer)
    as (Hsigned & _).
  apply (Hsigned (Jwt.mkClaims 1 None None) (Jwt.m 15) 500).
Defined.

(** ** The refresh endpoint *)


(** ** The refresh of the user-record model *)

Lemma find_user_by_id_cleared (i : Z) (us : list User.t) (u : User.t) :
  Prisma.find_user_by_id i
    (map (fun x => if User.id x =? i
                   then User.set_refreshToken None x else x) us)
  = Some u ->
  User.refreshToken u = None.
Proof.
  unfold Prisma.find_user_by_id.
  induction us as [|x us IH]; cbn [map find]; [discriminate|].
  destruct (User.id x =? i) eqn:Hx.
  - cbn [User.set_refreshToken User.id]. rewrite Hx. now intros [= <-].
  - rewrite Hx. exact IH.
Qed.

(** In the user-record model a logout is effective: with the database up,
    after [logout] of a user, whether the user exists or not, the refresh
    endpoint of that model turns away every token presented for that user
    with [UnauthorizedException "Usuario no autorizado"], without comparing
    it and without writing. *)
Theorem legacy_refresh_after_logout :
  forall (compare : Jwt.Token -> Bcrypt.Hash Jwt.Token -> bool) (env : Env)
         (userId : Z) (token : Jwt.Token) (st : Store),
    outage st = None ->
    let st1 := snd (AuthService.logout userId st) in
    LegacyAuthController.refreshTokens compare env userId token st1
    = (inl (UnauthorizedException "Usuario no autorizado"), st1).
Proof.
  intros compare env userId token st Hup st1. subst st1.
  unfold LegacyAuthController.refreshTokens.
  handlers. unfold bind, ret, throw, Prisma.query. rewrite Hup.
  destruct (Prisma.find_user_by_id userId (users st)) as [u|] eqn:Hu;
    store_cbn.
  - destruct (Prisma.find_user_by_id userId (map _ (users st))) as [u'|]
      eqn:Hu'; [|reflexivity].
    now rewrite (find_user_by_id_cleared _ _ _ Hu').
  - now rewrite Hu.
Qed.

(** User 1 logs out and presents the token of the registration. *)
Lemma legacy_refresh_after_logout_witness :
  outage populated = None
  /\ LegacyAuthController.refreshTokens recognises (env_at 500 "") 1
       (Jwt.sign (Jwt.mkClaims 1 None (Some "a@x.com")) "refresh-secret"
          (Jwt.d 7) 100)
       (snd (AuthService.logout 1 populated))
     = (inl (UnauthorizedException "Usuario no autorizado"),
        snd (AuthService.logout 1 populated)).
Proof.
  split; [reflexivity|].
  exact (legacy_refresh_after_logout recognises (env_at 500 "") 1 _
           populated eq_refl).
Defined.

(** In the user-record model the refresh rotates the stored hash and checks
    no expiry: with the database up, on a store that meets the constraints
    and has no user with the email, the refresh token [register] returned is
    accepted for the new user at any later time, also past its 7 days,
    provided [bcrypt.compare] recognises a token in its own hash; the
    endpoint answers with a fresh pair over the same subject and email, and
    the user row then holds the hash of the new refresh token. *)
Theorem legacy_refresh_rotates_without_expiry :
  forall (compare : Jwt.Token -> Bcrypt.Hash Jwt.Token -> bool)
         (env env' : Env) (email password name : string) (st : Store),
    (forall t rounds salt, compare t (Bcrypt.hash t rounds salt) = true) ->
    Store_ok st ->
    outage st = None ->
    Prisma.find_user_by_email email (users st) = None ->
    exists r st1 st2,
      AuthService.register env email password name st = (inr r, st1)
      /\ let claims := Jwt.mkClaims (userSeq st) None (Some email) in
         let refresh' :=
           Jwt.sign claims (JWT_REFRESH_SECRET (config env')) (Jwt.d 7)
             (now env') in
         LegacyAuthController.refreshTokens compare env'
           (AuthService.id (AuthService.user r))
           (AuthService.refresh_token r) st1
         = (inr {| LegacyAuthController.access_token :=
                     Jwt.sign claims (JWT_SECRET (config env')) (Jwt.m 15)
                       (now env');
                   LegacyAuthController.refresh_token := refresh' |}, st2)
         /\ option_map User.refreshToken
              (Prisma.find_user_by_id (userSeq st) (users st2))
            = Some (Some (Bcrypt.hash refresh' 10 (salt0 env')))
         /\ sessions st2 = sessions st.
Proof.
  intros compare env env' email password name st Hcompare Hok Hup Hfree.
  eexists. eexists. eexists. split; [now apply register_up|].
  assert (Hfresh := Store_ok_fresh_user_id st Hok).
  cbv zeta. cbn [AuthService.id AuthService.user AuthService.refresh_token].
  set (row := {| User.id := userSeq st; User.email := email;
                 User.password := Bcrypt.hash password 10 (salt0 env);
                 User.name := name; User.createdAt := now env;
                 User.refreshToken := _ |}).
  assert (Hrow : Prisma.find_user_by_id (userSeq st) (users st ++ [row])
                 = Some row)
    by exact (find_user_by_id_last row (users st) Hfresh).
  split; [|split].
  - unfold LegacyAuthController.refreshTokens.
    handlers. unfold bind, ret, throw, Prisma.query. store_fields.
    rewrite Hrow. cbn [User.refreshToken row]. rewrite Hcompare.
    cbn [User.id User.email row]. store_fields. rewrite Hrow.
    reflexivity.
  - store_fields. rewrite map_app, (map_clear_fresh _ _ _ Hfresh).
    cbn [map User.id row]. rewrite Z.eqb_refl.
    change (userSeq st)
      with (User.id (User.set_refreshToken
                       (Some (Bcrypt.hash
                                (Jwt.sign
                                   (Jwt.mkClaims (userSeq st) None
                                      (Some email))
                                   (JWT_REFRESH_SECRET (config env'))
                                   (Jwt.d 7) (now env')) 10 (salt0 env')))
                       row)) at 1.
    rewrite find_user_by_id_last by exact Hfresh.
    reflexivity.
  - reflexivity.
Qed.

Lemma option_string_eqb_refl (a : option string) :
  option_string_eqb a a = true.
Proof. destruct a; cbn; [apply String.eqb_refl|reflexivity]. Qed.

Lemma recognises_own_hash (t : Jwt.Token) (rounds : Z) (salt : string) :
  recognises t (Bcrypt.hash t rounds salt) = true.
Proof.
  destruct t as [k p|raw]; cbn [recognises Bcrypt.hash token_eqb].
  - now rewrite String.eqb_refl, !Z.eqb_refl, !option_string_eqb_refl.
  - apply String.eqb_refl.
Qed.

(** A third user registers at time 200 and refreshes, in the user-record
    model, at time 900000, after the token of the registration expired. *)
Lemma legacy_refresh_rotates_without_expiry_witness :
  Store_ok populated
  /\ Jwt.verify
       (Jwt.sign (Jwt.mkClaims 3 None (Some "c@x.com")) "refresh-secret"
          (Jwt.d 7) 200) "refresh-secret" 900000
     = inl Jwt.TokenExpiredError
  /\ exists r st1 st2,
      AuthService.register (env_at 200 "") "c@x.com" "pw3" "C" populated
      = (inr r, st1)
      /\ LegacyAuthController.refreshTokens recognises
           (env_at 900000 "") (AuthService.id (AuthService.user r))
           (AuthService.refresh_token r) st1
         = (inr {| LegacyAuthController.access_token :=
                     Jwt.sign (Jwt.mkClaims 3 None (Some "c@x.com"))
                       "access-secret" (Jwt.m 15) 900000;
                   LegacyAuthController.refresh_token :=
                     Jwt.sign (Jwt.mkClaims 3 None (Some "c@x.com"))
                       "refresh-secret" (Jwt.d 7) 900000 |}, st2).
Proof.
  split; [exact Store_ok_populated|]. split; [reflexivity|].
  destruct (legacy_refresh_rotates_without_expiry recognises
              (env_at 200 "") (env_at 900000 "") "c@x.com" "pw3" "C"
              populated recognises_own_hash Store_ok_populated eq_refl
              eq_refl)
    as (r & st1 & st2 & Hregister & Hrefresh & _).
  exists r, st1, st2. split; [exact Hregister|exact Hrefresh].
Defined.

(** ** Registration is not atomic *)

(** [register] writes in two steps and undoes nothing: on a store that meets
    the constraints and has no user with the email, when the database
    answers the insert and fails at the update, [register] throws the error
    of the database client and returns no tokens, yet the user row is there,
    without a stored refresh hash; once the database is back, registering
    the email again fails with the unique-constraint error, while the
    password that was sent is the one [validateUser] accepts. *)
Theorem register_is_not_atomic :
  forall (env env' : Env) (email password name password' name' : string)
         (st : Store),
    Store_ok st ->
    outage st = Some 1%nat ->
    Prisma.find_user_by_email email (users st) = None ->
    exists st1 row,
      AuthService.register env email password name st
      = (inl (PrismaClientKnownRequestError P1001), st1)
      /\ users st1 = (users st ++ [row])%list
      /\ User.email row = email
      /\ User.refreshToken row = None
      /\ sessions st1 = sessions st
      /\ AuthService.register env' email password' name'
           (set_outage None st1)
         = (inl (PrismaClientKnownRequestError P2002), set_outage None st1)
      /\ AuthService.validateUser email password (set_outage None st1)
         = (inr row, set_outage None st1).
Proof.
  intros env env' email password name password' name' st Hok Hfail Hfree.
  set (row := {| User.id := userSeq st; User.email := email;
                 User.password := Bcrypt.hash password 10 (salt0 env);
                 User.name := name; User.createdAt := now env;
                 User.refreshToken := None |}).
  assert (Hrow : Prisma.find_user_by_email email (users st ++ [row])
                 = Some row)
    by exact (find_user_by_email_last row (users st) Hfree).
  eexists. exists row. split; [|split; [|split; [|split; [|split; [|split]]]]].
  - handlers. unfold bind, ret, throw, Prisma.query. rewrite Hfail.
    store_fields. rewrite Hfree. store_fields. reflexivity.
  - reflexivity.
  - reflexivity.
  - reflexivity.
  - reflexivity.
  - handlers. unfold bind, ret, throw, Prisma.query. store_fields.
    fold row. now rewrite Hrow.
  - handlers. unfold bind, ret, throw, Prisma.query. store_fields.
    fold row. rewrite Hrow.
    cbn [User.password row Bcrypt.compare Bcrypt.hash].
    now rewrite String.eqb_refl.
Qed.

(** A third user registers while the database fails at the second query. *)
Lemma register_is_not_atomic_witness :
  Store_ok failing_soon
  /\ outage failing_soon = Some 1%nat
  /\ exists st1,
      AuthService.register (env_at 200 "") "c@x.com" "pw3" "C" failing_soon
      = (inl (PrismaClientKnownRequestError P1001), st1)
      /\ map User.email (users st1) = ["a@x.com"; "b@x.com"; "c@x.com"]
      /\ AuthService.register (env_at 300 "") "c@x.com" "pw3" "C"
           (set_outage None st1)
         = (inl (PrismaClientKnownRequestError P2002), set_outage None st1).
Proof.
  assert (Hok : Store_ok failing_soon) by exact Store_ok_populated.
  split; [exact Hok|]. split; [reflexivity|].
  destruct (register_is_not_atomic (env_at 200 "") (env_at 300 "") "c@x.com"
              "pw3" "C" "pw3" "C" failing_soon Hok eq_refl eq_refl)
    as (st1 & row & Hrun & Husers & Hemail & _ & _ & Hagain & _).
  exists st1. split; [exact Hrun|]. split; [|exact Hagain].
  rewrite Husers, map_app. cbn [map]. rewrite Hemail. reflexivity.
Defined.

(** ** Listing sessions *)

Lemma filter_filter_none {A : Type} (p : A -> bool) (l : list A) :
  filter p (filter (fun x => negb (p x)) l) = [].
Proof.
  induction l as [|a l IH]; cbn [filter]; [reflexivity|].
  destruct (p a) eqn:Ha; cbn [negb filter]; [exact IH|].
  now rewrite Ha.
Qed.

Lemma filter_filter_other {A : Type} (p q : A -> bool) (l : list A) :
  (forall a, q a = true -> p a = false) ->
  filter q (filter (fun x => negb (p x)) l) = filter q l.
Proof.
  intros Hdisjoint.
  induction l as [|a l IH]; cbn [filter]; [reflexivity|].
  destruct (p a) eqn:Ha; cbn [negb filter].
  - destruct (q a) eqn:Hq; [|exact IH].
    rewrite (Hdisjoint a Hq) in Ha. discriminate.
  - destruct (q a); now rewrite IH.
Qed.

(** After [logoutAll] the list of sessions of the user is empty and the list
    of every other user is what it was: with the database up, [getSessions]
    answers the user with no entry, and answers another user with the same
    entries, in the same order, as before the logout. *)
Theorem logoutAll_then_getSessions :
  forall (st : Store) (userId : Z),
    outage st = None ->
    let st' := snd (AuthController.logoutAll userId st) in
    AuthController.getSessions userId st' = (inr [], st')
    /\ forall other,
        other <> userId ->
        fst (AuthController.getSessions other st')
        = fst (AuthController.getSessions other st).
Proof.
  intros st userId Hup st'. subst st'.
  handlers. unfold bind, ret, throw, Prisma.query. rewrite Hup.
  store_cbn. split.
  - now rewrite (filter_filter_none (fun x => Session.userId x =? userId)).
  - intros other Hother.
    rewrite (filter_filter_other (fun x => Session.userId x =? userId)
               (fun x => Session.userId x =? other)); [reflexivity|].
    intros s Hs. apply Z.eqb_eq in Hs. apply Z.eqb_neq. congruence.
Qed.

(** User 1 closes all sessions; user 2 still sees one. *)
Lemma logoutAll_then_getSessions_witness :
  outage populated = None
  /\ fst (AuthController.getSessions 1
            (snd (AuthController.logoutAll 1 populated)))
     = inr []
  /\ fst (AuthController.getSessions 2
            (snd (AuthController.logoutAll 1 populated)))
     = inr [{| Session.v_id := 2; Session.v_userAgent := "safari";
               Session.v_ip := "10.0.0.1"; Session.v_createdAt := 130;
               Session.v_updatedAt := 130 |}].
Proof.
  split; [reflexivity|].
  destruct (logoutAll_then_getSessions populated 1 eq_refl) as [Hown Hothers].
  split.
  - now rewrite Hown.
  - rewrite (Hothers 2); [reflexivity|discriminate].
Defined.

(** ** Cache keys *)

Lemma buildKey_cons {Number : Type} (toString : Number -> string) (c : ascii)
  (prefix : string) (id : string + Number) :
  BaseCacheService.buildKey toString (String c prefix) id
  = String c (BaseCacheService.buildKey toString prefix id).
Proof. reflexivity. Qed.

(** Cache keys tell prefixes apart, and ids up to their rendering: whatever
    the conversion of numbers to text, two keys built from prefixes that
    hold no colon are equal only if the prefixes are equal and the ids
    render to the same text; and a number and the string of its rendering
    always share a key. *)
Theorem buildKey_injective :
  forall (Number : Type) (toString : Number -> string)
         (prefix1 prefix2 : string) (id1 id2 : string + Number),
    has_colon prefix1 = false ->
    has_colon prefix2 = false ->
    (BaseCacheService.buildKey toString prefix1 id1
     = BaseCacheService.buildKey toString prefix2 id2 ->
     prefix1 = prefix2
     /\ BaseCacheService.render toString id1
        = BaseCacheService.render toString id2)
    /\ forall n,
        BaseCacheService.buildKey toString prefix1 (inr n)
        = BaseCacheService.buildKey toString prefix1 (inl (toString n)).
Proof.
  intros Number toString prefix1 prefix2 id1 id2 H1 H2.
  split; [|reflexivity].
  revert prefix2 H1 H2.
  induction prefix1 as [|c prefix1 IH]; intros prefix2 H1 H2 Hkey;
    destruct prefix2 as [|c2 prefix2].
  - cbn in Hkey. injection Hkey as Hkey. now split.
  - cbn in Hkey. injection Hkey as <- _.
    cbn [has_colon] in H2. rewrite Ascii.eqb_refl in H2. discriminate.
  - cbn in Hkey. injection Hkey as -> _.
    cbn [has_colon] in H1. rewrite Ascii.eqb_refl in H1. discriminate.
  - rewrite !buildKey_cons in Hkey. injection Hkey as <- Hkey.
    cbn [has_colon] in H1, H2.
    apply orb_false_iff in H1. apply orb_false_iff in H2.
    destruct (IH prefix2 (proj2 H1) (proj2 H2) Hkey) as [-> Hid].
    now split.
Qed.

(** With the decimal rendering of integers: the keys of user 7 and of
    session 7 differ, the number 7 and the string of its digits share a
    key, and with a colon in a prefix two different pairs meet in one
    key. *)
Lemma buildKey_injective_witness :
  has_colon "user" = false
  /\ has_colon "session" = false
  /\ BaseCacheService.buildKey decimal "user" (inr 7)
     <> BaseCacheService.buildKey decimal "session" (inr 7)
  /\ BaseCacheService.buildKey decimal "user" (inr 7)
     = BaseCacheService.buildKey decimal "user" (inl "7")
  /\ BaseCacheService.buildKey decimal "user" (inl "1:2")
     = BaseCacheService.buildKey decimal "user:1" (inl "2").
Proof.
  split; [reflexivity|]. split; [reflexivity|].
  destruct (buildKey_injective Z decimal "user" "session" (inr 7) (inr 7)
              eq_refl eq_refl) as [Hinjective Hshared].
  split; [|split; [apply Hshared|reflexivity]].
  intros Hkey. destruct (Hinjective Hkey) as [Hprefix _]. discriminate.
Defined.

(** ** The login endpoint *)

Lemma validateUser_inr (email password : string) (st st1 : Store)
  (u : User.t) :
  AuthService.validateUser email password st = (inr u, st1) ->
  Prisma.find_user_by_email email (users st) = Some u
  /\ Bcrypt.compare password (User.password u) = true
  /\ users st1 = users st /\ sessions st1 = sessions st.
Proof.
  handlers. unfold bind, ret, throw, Prisma.query.
  destruct (outage st) as [[|n]|] eqn:Houtage; store_cbn; try discriminate;
    destruct (Prisma.find_user_by_email _ _) as [v|]; try discriminate;
    destruct (Bcrypt.compare _ _) eqn:Hmatch; try discriminate;
    intros [= <- <-]; repeat split; assumption.
Qed.

Lemma validateUser_inl (email password : string) (st st1 : Store)
  (e : Exception) :
  AuthService.validateUser email password st = (inl e, st1) ->
  users st1 = users st /\ sessions st1 = sessions st.
Proof.
  handlers. unfold bind, ret, throw, Prisma.query.
  destruct (outage st) as [[|n]|] eqn:Houtage; store_cbn;
    try (intros [= _ <-]; now split);
    destruct (Prisma.find_user_by_email _ _) as [v|];
    try (intros [= _ <-]; now split);
    destruct (Bcrypt.compare _ _); intros [= _ <-]; now split.
Qed.

Lemma login_rows (env : Env) (user : User.t) (req : Request)
  (st st' : Store) (r : Result TokenPair.t) :
  AuthService.login env user req st = (r, st') ->
  users st' = users st
  /\ match r with
     | inl _ => sessions st' = sessions st
     | inr tokens =>
         exists row,
           sessions st' = (sessions st ++ [row])%list
           /\ Session.userId row = User.id user
           /\ Session.refreshToken row = TokenPair.refreshToken tokens
     end.
Proof.
  handlers. unfold bind, ret, throw, Prisma.query.
  destruct (outage st) as [[|n]|] eqn:Houtage; store_cbn;
    try (intros [= <- <-]; now split);
    destruct (Prisma.find_session_by_jti _ _); store_cbn;
    try (intros [= <- <-]; now split);
    destruct (Prisma.find_user_by_id _ _); store_cbn;
    try (intros [= <- <-]; now split);
    intros [= <- <-]; (split; [reflexivity|]); eexists; repeat split.
Qed.

(** No session without the password check: whatever the login endpoint
    answers, it leaves the users as they were; when it fails it leaves the
    sessions as they were; and when it succeeds, the store had a user with
    the email of the request whose stored hash [bcrypt.compare] accepted for
    the password of the request, and the table gained exactly one row, of
    that user, holding the refresh token set as cookie. *)
Theorem login_endpoint_checks_password :
  forall (env : Env) (req : Request) (st st' : Store)
         (r : Result AuthController.Response),
    AuthController.login env req st = (r, st') ->
    users st' = users st
    /\ match r with
       | inl _ => sessions st' = sessions st
       | inr resp =>
           exists u row,
             Prisma.find_user_by_email (body_email req) (users st) = Some u
             /\ Bcrypt.compare (body_password req) (User.password u) = true
             /\ sessions st' = (sessions st ++ [row])%list
             /\ Session.userId row = User.id u
             /\ Session.refreshToken row
                = AuthController.value (AuthController.set_cookie resp)
       end.
Proof.
  intros env req st st' r. unfold AuthController.login, bind.
  destruct (AuthService.validateUser (body_email req) (body_password req) st)
    as [[e|u] st1] eqn:Hvalidate.
  - intros [= <- <-]. now apply validateUser_inl in Hvalidate.
  - apply validateUser_inr in Hvalidate.
    destruct Hvalidate as (Hu & Hmatch & Husers & Hsessions).
    destruct (AuthService.login env u req st1) as [[e|pair] st2] eqn:Hlogin;
      apply login_rows in Hlogin; destruct Hlogin as [Husers2 Hrows];
      unfold ret; intros [= <- <-].
    + split; congruence.
    + destruct Hrows as (row & Hrows & Hown & Htoken).
      split; [congruence|]. exists u, row.
      cbn [AuthController.set_cookie AuthController.value
           AuthController.refresh_cookie].
      rewrite <- Hsessions. repeat split; assumption.
Qed.

(** A wrong password and the right one for [a@x.com] on the populated
    store. *)
Lemma login_endpoint_checks_password_witness :
  sessions (snd (AuthController.login (env_at 150 "jti-4")
                   (browser "a@x.com" "guess" "edge") populated))
  = sessions populated
  /\ exists resp st',
      AuthController.login (env_at 150 "jti-4")
        (browser "a@x.com" "pw1" "edge") populated = (inr resp, st')
      /\ exists u row,
          Prisma.find_user_by_email "a@x.com" (users populated) = Some u
          /\ Bcrypt.compare "pw1" (User.password u) = true
          /\ sessions st' = (sessions populated ++ [row])%list
          /\ Session.userId row = User.id u
          /\ Session.refreshToken row
             = AuthController.value (AuthController.set_cookie resp).
Proof.
  split.
  - destruct (AuthController.login (env_at 150 "jti-4")
                (browser "a@x.com" "guess" "edge") populated)
      as [r st'] eqn:Hrun.
    assert (Hfailed : exists e, r = inl e).
    { apply (f_equal fst) in Hrun. cbn [fst] in Hrun. rewrite <- Hrun.
      eexists. reflexivity. }
    destruct Hfailed as [e ->].
    exact (proj2 (login_endpoint_checks_password _ _ _ _ _ Hrun)).
  - destruct (AuthController.login (env_at 150 "jti-4")
                (browser "a@x.com" "pw1" "edge") populated)
      as [r st'] eqn:Hrun.
    assert (Hdone : exists resp, r = inr resp).
    { apply (f_equal fst) in Hrun. cbn [fst] in Hrun. rewrite <- Hrun.
      eexists. reflexivity. }
    destruct Hdone as [resp ->].
    exists resp, st'. split; [reflexivity|].
    exact (proj2 (login_endpoint_checks_password _ _ _ _ _ Hrun)).
Defined.
